(** * dist-keras: the parameter server, the Spark worker and the coordinator

    A shallow embedding of [distkeras/distributed_models.py].  Python
    objects are attribute dictionaries, free names are looked up in the
    module namespace, and every statement that can raise is written in a
    state-and-exception monad, so that the order in which the source
    evaluates names and attributes is the order in which the model fails. *)

From Stdlib Require Import ZArith QArith String List.
From stdpp Require Import base gmap strings list pretty.

#[local] Set Warnings "-register-all".
#[local] Open Scope string_scope.
#[local] Open Scope Z_scope.
#[local] Open Scope list_scope.

(** ** Tensors and parameter sets *)

(** A numpy array: a shape tag and the entries in row-major order.  Entries
    are exact rationals; rounding is outside the model. *)
Record ndarray := NDArray { shape : list nat; data : list Q }.

(** What [model.get_weights()] returns: a Python list of arrays. *)
Abbreviation weights := (list ndarray).

Definition shapes (ws : weights) : list (list nat) := shape <$> ws.

(** One record of a partition as built by [to_simple_rdd]: a feature vector
    paired with a label vector. *)
Abbreviation sample := (list Q * list Q)%type.

(** ** Exceptions and results *)

Inductive exn :=
| NameError (name : string)
| AttributeError (attr : string)
| TypeError (what : string)
| KeyError (key : string)
| IndexError
| ZeroDivisionError
| UnpicklingError
| ValueError (what : string)
| HTTPError (code : Z)
| NotImplementedError
| OverflowError.

Inductive result (A : Type) :=
| Ok (a : A)
| Raise (e : exn).
Arguments Ok {A} a.
Arguments Raise {A} e.

(** Statements of a method body: they read and write a state [S] (the
    object, the network, a log) and either produce a value or raise.  The
    state reached when the exception is raised is kept. *)
Definition py (S A : Type) : Type := S -> result A * S.

Definition ret {S A} (a : A) : py S A := fun s => (Ok a, s).
Definition raise {S A} (e : exn) : py S A := fun s => (Raise e, s).
Definition bind {S A B} (c : py S A) (k : A -> py S B) : py S B :=
  fun s => match c s with
           | (Ok a, s') => k a s'
           | (Raise e, s') => (Raise e, s')
           end.
Definition lift {S A} (r : result A) : py S A := fun s => (r, s).
Definition get {S} : py S S := fun s => (Ok s, s).
Definition modify {S} (f : S -> S) : py S unit := fun s => (Ok tt, f s).

Notation "'let*' x ':=' c 'in' k" := (bind c (fun x => k))
  (at level 10, x pattern, c at level 100, k at level 200).
Notation "c '>>' k" := (bind c (fun _ => k))
  (at level 100, k at level 200, right associativity).

(** A [for] loop that threads a loop-carried value. *)
Fixpoint for_each {S A B} (xs : list A) (body : A -> B -> py S B) (b : B) : py S B :=
  match xs with
  | [] => ret b
  | x :: xs' => let* b' := body x b in for_each xs' body b'
  end.

(** ** Opaque collaborators *)

(** The types this module handles without looking inside. *)
Class Handles := {
  kmodel : Type;      (* a Keras model instance *)
  koptimizer : Type;  (* an optimizer of [distkeras.optimizers] *)
  blob : Type;        (* a pickled byte string *)
  net : Type;         (* everything reachable through [master_url] *)
}.

(** ** Python values *)

Inductive pyval `{Handles} :=
| PyNone
| PyInt (n : Z)
| PyStr (s : string)
| PyBytes (b : blob)
| PyDict (d : gmap string Z)
| PyWeights (w : weights)
| PyModel (m : kmodel)
| PyOptimizer (o : koptimizer)
| PyRDD (parts : list (list sample))
| PyPickle
| PyLock
| PyProcess
| PyOpaque (tag : string)
| PyObject (attrs : gmap string pyval).

(** An instance's [__dict__], and a module's namespace. *)
Abbreviation attrs := (gmap string pyval).

(** The Keras model interface ([keras.models], [keras.engine.training]). *)
Class Keras `{Handles} := {
  model_from_json : string -> kmodel;
  to_json : kmodel -> string;
  compile : pyval -> pyval -> kmodel -> kmodel;
  get_weights : kmodel -> weights;
  set_weights : weights -> kmodel -> kmodel;
  train_on_batch : list (list Q) -> list (list Q) -> kmodel -> kmodel;
  constraints : kmodel -> pyval;
  model_get_config : kmodel -> pyval;
  predict : list (list Q) -> kmodel -> pyval;
  predict_classes : list (list Q) -> kmodel -> pyval;
}.

(** [cPickle]. *)
Class Pickle `{Handles} := {
  dumps : weights -> blob;
  loads : blob -> result weights;
}.

(** What the star import of [distkeras.optimizers] is used for: the update
    rule.  It either returns the new parameters (and its own new state) or
    raises; when it raises nothing has been changed. *)
Class Optimizers `{Handles} := {
  get_updates : koptimizer -> weights -> weights -> pyval -> result (koptimizer * weights);
  optimizer_get_config : koptimizer -> pyval;
}.

(** What the star import of [distkeras.networking] is used for: the client
    side of the two routes, the host address, and the parameter difference. *)
Class Networking `{Handles} := {
  determine_host_address : string;
  get_master_weights : string -> net -> result weights * net;
  send_master_model_deltas : weights -> string -> net -> result unit * net;
  subtract_params : weights -> weights -> weights;
}.

(** The Spark side: [rdd.repartition(n)]. *)
Class Spark := {
  repartition : Z -> list (list sample) -> list (list sample);
}.

(** [multiprocessing.Process]: [start()] forks a child that runs the target
    with a copy of the object; [terminate()] and [join()] end it. *)
Class Processes `{Handles} := {
  process_start : attrs -> net -> net;
  process_terminate : net -> net;
}.

(** [float(n)] for an integer raises [OverflowError] when [n] rounds to
    [2 ^ 1024] or beyond, that is from [2 ^ 1024 - 2 ^ 970] on. *)
Definition float_overflows (n : Z) : bool := 2 ^ 1024 - 2 ^ 970 <=? Z.abs n.
Arguments float_overflows : simpl never.

(** ** Names, attributes and casts *)

Section Python.
Context `{Handles}.

(** [o.name] for an instance dictionary [o]. *)
Definition getattr (o : attrs) (name : string) : result pyval :=
  match o !! name with
  | Some v => Ok v
  | None => Raise (AttributeError name)
  end.

(** [v.name] for any value: only instances carry attributes. *)
Definition getattr_val (v : pyval) (name : string) : result pyval :=
  match v with
  | PyObject o => getattr o name
  | _ => Raise (AttributeError name)
  end.

(** [self.name] and [self.name = v] inside a method whose state is [self]. *)
Definition self_attr (name : string) : py attrs pyval :=
  fun self => (getattr self name, self).
Definition set_self_attr (name : string) (v : pyval) : py attrs unit :=
  modify (<[name := v]>).

(** [v.meth(...)] where [meth] is a method of Keras models. *)
Definition as_model (meth : string) (v : pyval) : result kmodel :=
  match v with
  | PyModel m => Ok m
  | _ => Raise (AttributeError meth)
  end.

Definition as_optimizer (meth : string) (v : pyval) : result koptimizer :=
  match v with
  | PyOptimizer o => Ok o
  | _ => Raise (AttributeError meth)
  end.

Definition as_weights (v : pyval) : result weights :=
  match v with
  | PyWeights w => Ok w
  | _ => Raise (TypeError "parameter list expected")
  end.

Definition as_str (v : pyval) : result string :=
  match v with
  | PyStr s => Ok s
  | _ => Raise (TypeError "string expected")
  end.

Definition as_int (v : pyval) : result Z :=
  match v with
  | PyInt n => Ok n
  | _ => Raise (TypeError "integer expected")
  end.

Definition as_rdd (meth : string) (v : pyval) : result (list (list sample)) :=
  match v with
  | PyRDD parts => Ok parts
  | _ => Raise (AttributeError meth)
  end.

(** [v[key]] with a string key: dictionaries answer or raise [KeyError],
    nothing else can be subscripted by a string. *)
Definition subscript (v : pyval) (key : string) : result Z :=
  match v with
  | PyDict d => match d !! key with
                | Some n => Ok n
                | None => Raise (KeyError key)
                end
  | _ => Raise (TypeError "indices must be integers")
  end.

(** [v == s] for a string literal [s]. *)
Definition eq_str (v : pyval) (s : string) : bool :=
  match v with
  | PyStr s' => bool_decide (s' = s)
  | _ => false
  end.

(** [repr] of a [str]: single quotes, unless the string has a single
    quote and no double quote; the quote in use and the backslash are
    escaped, tab, newline and carriage return are written [\t], [\n] and
    [\r], and every other byte outside the printable ASCII range as [\x]
    and two hexadecimal digits. *)
Definition single_quote : Ascii.ascii := Ascii.ascii_of_nat 39.
Definition double_quote : Ascii.ascii := Ascii.ascii_of_nat 34.
Definition backslash : Ascii.ascii := Ascii.ascii_of_nat 92.

Fixpoint has_char (c : Ascii.ascii) (s : string) : bool :=
  match s with
  | EmptyString => false
  | String c' s' => bool_decide (c' = c) || has_char c s'
  end.

Definition hex_digit (n : nat) : Ascii.ascii :=
  match String.get n "0123456789abcdef" with
  | Some d => d
  | None => Ascii.zero
  end.

Definition repr_char (quote c : Ascii.ascii) : string :=
  let n := Ascii.nat_of_ascii c in
  if bool_decide (c = quote) || bool_decide (c = backslash)
  then String backslash (String c EmptyString)
  else if (n =? 9)%nat then String backslash "t"
  else if (n =? 10)%nat then String backslash "n"
  else if (n =? 13)%nat then String backslash "r"
  else if (n <? 32)%nat || (127 <=? n)%nat
  then String backslash
         (String (Ascii.ascii_of_nat 120)
            (String (hex_digit (n / 16)%nat)
               (String (hex_digit (n mod 16)%nat) EmptyString)))
  else String c EmptyString.

Fixpoint repr_chars (quote : Ascii.ascii) (s : string) : string :=
  match s with
  | EmptyString => EmptyString
  | String c s' => repr_char quote c +:+ repr_chars quote s'
  end.

Definition repr_str (s : string) : string :=
  let quote :=
    if has_char single_quote s && negb (has_char double_quote s)
    then double_quote else single_quote in
  String quote (repr_chars quote s +:+ String quote EmptyString).

(** [`v`], the [repr] of a value, as far as this module needs it.  A
    [PyInt] is an [int] where it fits a 64-bit machine word and a [long]
    beyond, and a [long] is written with a trailing [L]. *)
Definition py_repr (v : pyval) : string :=
  match v with
  | PyInt n => if (- 2 ^ 63 <=? n) && (n <? 2 ^ 63) then pretty n else pretty n +:+ "L"
  | PyStr s => repr_str s
  | PyNone => "None"
  | _ => "<object>"
  end.

(** [with lock: body]: the lock is looked up, taken, and released when the
    body ends, also by an exception. *)
Definition with_lock {S A} (lock : result pyval) (body : py S A) : py S A :=
  match lock with
  | Ok PyLock => body
  | Ok _ => raise (AttributeError "__exit__")
  | Raise e => raise e
  end.
End Python.

(** ** The module namespace *)

Section Distkeras.
Context `{Handles} `{!Keras} `{!Pickle} `{!Optimizers} `{!Networking}
        `{!Spark} `{!Processes}.

(** The names bound in the module besides its own imports and classes:
    whatever the two star imports brought in, and whatever was assigned to
    the module afterwards. *)
Variable globals : attrs.

(** A free name that is read as a value. *)
Definition lookup_global {S} (name : string) : py S pyval :=
  match globals !! name with
  | Some v => ret v
  | None => raise (NameError name)
  end.

(** A free name that is called.  A helper that is bound is the helper of
    that name; its behaviour is the collaborator's. *)
Definition helper {S} (name : string) : py S unit :=
  match globals !! name with
  | Some _ => ret tt
  | None => raise (NameError name)
  end.

(** [v.dumps] *)
Definition attr_dumps (v : pyval) : result (weights -> blob) :=
  match v with
  | PyPickle => Ok dumps
  | PyObject o => match o !! "dumps" with
                  | Some _ => Raise (TypeError "object is not callable")
                  | None => Raise (AttributeError "dumps")
                  end
  | _ => Raise (AttributeError "dumps")
  end.

(** *** DistributedModel *)

(** [DistributedModel.__init__] *)
Definition DistributedModel_init (keras_model : kmodel) (optimizer : koptimizer)
    (master_port : Z) : py attrs unit :=
  set_self_attr "master_model" (PyModel keras_model) >>
  let* mm := self_attr "master_model" in
  let* m := lift (as_model "get_weights" mm) in
  set_self_attr "weights" (PyWeights (get_weights m)) >>
  helper "determine_host_address" >>
  set_self_attr "master_address" (PyStr determine_host_address) >>
  set_self_attr "master_port" (PyInt master_port) >>
  set_self_attr "optimizer" (PyOptimizer optimizer) >>
  set_self_attr "mutex" PyLock.

(** The block under the lock in [route_parameters]. *)
Definition pickle_master_weights : py attrs pyval :=
  let* picle := lookup_global "picle" in
  let* picle_dumps := lift (attr_dumps picle) in
  let* mm := self_attr "master_model" in
  let* m := lift (as_model "get_weights" mm) in
  let pickled_weights := picle_dumps (get_weights m) in
  ret (PyBytes pickled_weights).

(** The route [GET /parameters]. *)
Definition route_parameters : py attrs pyval :=
  fun self => with_lock (getattr self "mutex") pickle_master_weights self.

(** What [update_parameters] evaluates under the lock before it assigns:
    [constraints], then
    [self.optimizer.get_updates(self.weights, delta, constraints)].  The
    optimizer comes out of the call in its new state. *)
Definition updated_weights (delta : weights) : py attrs weights :=
  let* mm := self_attr "master_model" in
  let* m := lift (as_model "constraints" mm) in
  let constraints := constraints m in
  let* o := self_attr "optimizer" in
  let* opt := lift (as_optimizer "get_updates" o) in
  let* w := self_attr "weights" in
  let* current := lift (as_weights w) in
  let* (opt', new) := lift (get_updates opt current delta constraints) in
  set_self_attr "optimizer" (PyOptimizer opt') >>
  ret new.

(** The route [POST /update]; [request_data] is [request.data]. *)
Definition update_parameters (request_data : blob) : py attrs pyval :=
  let* delta := lift (loads request_data) in
  (fun self =>
   with_lock (getattr self "mutex")
     (let* new := updated_weights delta in
      set_self_attr "weights" (PyWeights new)) self) >>
  ret PyNone.

(** *** The Flask application of [service] *)

Inductive request :=
| GET_parameters
| POST_update (body : blob).

Inductive response :=
| HTTP200 (body : blob)
| HTTP500.

(** Flask turns what a view returns into a response.  A byte string is the
    body of a 200; a view that returns [None] makes Flask raise
    "View function did not return a response", which is a 500. *)
Definition make_response (rv : pyval) : response :=
  match rv with
  | PyBytes b => HTTP200 b
  | _ => HTTP500
  end.

(** One request: the view runs on the server's object; an exception that
    leaves the view is caught by Flask and answered with a 500, and the
    object stays as the view left it. *)
Definition handle (r : request) (self : attrs) : response * attrs :=
  let view := match r with
              | GET_parameters => route_parameters
              | POST_update body => update_parameters body
              end in
  match view self with
  | (Ok rv, self') => (make_response rv, self')
  | (Raise _, self') => (HTTP500, self')
  end.

(** [app.run(...)]: requests are answered one after the other. *)
Fixpoint serve (rs : list request) (self : attrs) : list response * attrs :=
  match rs with
  | [] => ([], self)
  | r :: rs' =>
      let (resp, self') := handle r self in
      let (resps, self'') := serve rs' self' in
      (resp :: resps, self'')
  end.

(** *** Requests handled in threads

    [app.run(threaded=True)] gives every request a thread of its own.
    The threads share the object and its lock, and take turns statement
    by statement. *)

(** Where the thread of one request is. *)
Inductive thread :=
| Arrived (r : request)         (* the view has not started *)
| Unpickled (delta : weights)   (* update_parameters, before [with self.mutex] *)
| Updating (delta : weights)    (* update_parameters, lock held *)
| Assigning (new : weights)     (* [get_updates] has returned, [self.weights] is not yet rebound *)
| Pickling                      (* route_parameters, lock held *)
| Leaving (rv : result pyval)   (* at the end of the with block, lock still held *)
| Answered (resp : response).

(** The object and who holds [self.mutex]. *)
Record shared := Shared { sh_self : attrs; sh_lock : option nat }.

(** What Flask answers once the view has returned or raised. *)
Definition answer (rv : result pyval) : response :=
  match rv with
  | Ok v => make_response v
  | Raise _ => HTTP500
  end.

(** [with self.mutex:] entered by thread [i]: a thread that finds the
    lock taken waits, which is no step at all. *)
Definition enter (i : nat) (inside : thread) (sh : shared) : option (thread * shared) :=
  match getattr (sh_self sh) "mutex" with
  | Ok PyLock =>
      match sh_lock sh with
      | None => Some (inside, {| sh_self := sh_self sh; sh_lock := Some i |})
      | Some _ => None
      end
  | Ok _ | Raise _ => Some (Answered HTTP500, sh)
  end.

(** One step of thread [i]. *)
Definition step (i : nat) (t : thread) (sh : shared) : option (thread * shared) :=
  match t with
  | Arrived GET_parameters => enter i Pickling sh
  | Arrived (POST_update body) =>
      match loads body with
      | Ok delta => Some (Unpickled delta, sh)
      | Raise _ => Some (Answered HTTP500, sh)
      end
  | Unpickled delta => enter i (Updating delta) sh
  | Updating delta =>
      match updated_weights delta (sh_self sh) with
      | (Ok new, self') =>
          Some (Assigning new, {| sh_self := self'; sh_lock := sh_lock sh |})
      | (Raise e, self') =>
          Some (Leaving (Raise e), {| sh_self := self'; sh_lock := sh_lock sh |})
      end
  | Assigning new =>
      Some (Leaving (Ok PyNone),
            {| sh_self := <["weights" := PyWeights new]> (sh_self sh);
               sh_lock := sh_lock sh |})
  | Pickling =>
      match pickle_master_weights (sh_self sh) with
      | (rv, self') =>
          Some (Leaving rv, {| sh_self := self'; sh_lock := sh_lock sh |})
      end
  | Leaving rv =>
      Some (Answered (answer rv), {| sh_self := sh_self sh; sh_lock := None |})
  | Answered _ => None
  end.

(** The scheduler gives thread [i] a turn: it takes a step if it can. *)
Definition turn (i : nat) (c : list thread * shared) : list thread * shared :=
  match fst c !! i with
  | Some t =>
      match step i t (snd c) with
      | Some (t', sh') => (<[i := t']> (fst c), sh')
      | None => c
      end
  | None => c
  end.

(** A run under a schedule, the list of whose turn it is. *)
Definition run (schedule : list nat) (c : list thread * shared) : list thread * shared :=
  foldl (fun c i => turn i c) c schedule.

(** The server when the requests have arrived and no view has started. *)
Definition arrived (requests : list request) (self : attrs) : list thread * shared :=
  (Arrived <$> requests, {| sh_self := self; sh_lock := None |}).

Definition is_answered (t : thread) : Prop :=
  match t with
  | Answered _ => True
  | _ => False
  end.

(** A serial order of the requests: who was served, with which request
    and which answer, one after the other. *)
Definition serial_order (requests : list request) (pool : list thread)
    (order : list (nat * request * response)) : Prop :=
  (order.*1.*1) ≡ₚ seq 0 (length requests) /\
  forall i r resp, (i, r, resp) ∈ order ->
    requests !! i = Some r /\ pool !! i = Some (Answered resp).

(** The states of a thread in which it holds the lock. *)
Definition inside (t : thread) : Prop :=
  match t with
  | Updating _ | Assigning _ | Pickling | Leaving _ => True
  | Arrived _ | Unpickled _ | Answered _ => False
  end.

(** What the thread that holds the lock will have answered, and what it
    will have made of the object, when it leaves the with block. *)
Definition finish (t : thread) (self : attrs) : option (response * attrs) :=
  match t with
  | Updating delta =>
      match updated_weights delta self with
      | (Ok new, self') => Some (answer (Ok PyNone), <["weights" := PyWeights new]> self')
      | (Raise e, self') => Some (answer (Raise e), self')
      end
  | Assigning new => Some (answer (Ok PyNone), <["weights" := PyWeights new]> self)
  | Pickling =>
      match pickle_master_weights self with
      | (rv, self') => Some (answer rv, self')
      end
  | Leaving rv => Some (answer rv, self)
  | Arrived _ | Unpickled _ | Answered _ => None
  end.

(** What a thread has to agree on with its request and with the lock. *)
Definition thread_ok (requests : list request) (sh : shared) (i : nat) (t : thread) : Prop :=
  match t with
  | Arrived r => requests !! i = Some r
  | Unpickled delta =>
      exists body, requests !! i = Some (POST_update body) /\ loads body = Ok delta
  | Answered _ => True
  | Updating _ | Assigning _ | Pickling | Leaving _ => sh_lock sh = Some i
  end.

(** The invariant of a run: the requests answered so far, served one after
    the other in [order] from the initial object, give the answers the
    threads gave; they also give the object as it is now when the lock is
    free, and otherwise the object from which the thread that holds the
    lock is being served. *)
Record linearised (requests : list request) (self0 : attrs)
    (c : list thread * shared) (order : list (nat * request * response)) : Prop := {
  lin_length : length (fst c) = length requests;
  lin_nodup : NoDup (order.*1.*1);
  lin_order : forall i r resp, (i, r, resp) ∈ order ->
      requests !! i = Some r /\ fst c !! i = Some (Answered resp);
  lin_answered : forall i resp, fst c !! i = Some (Answered resp) ->
      exists r, (i, r, resp) ∈ order;
  lin_mutex : sh_self (snd c) !! "mutex" = self0 !! "mutex";
  lin_thread : forall i t, fst c !! i = Some t -> thread_ok requests (snd c) i t;
  lin_state :
    match sh_lock (snd c) with
    | None => serve (order.*1.*2) self0 = (order.*2, sh_self (snd c))
    | Some i =>
        exists t r self_base,
          fst c !! i = Some t /\
          requests !! i = Some r /\
          serve (order.*1.*2) self0 = (order.*2, self_base) /\
          finish t (sh_self (snd c)) = Some (handle r self_base)
    end;
}.

(** A Submit the server is asked to reject: the body is no pickle, or
    the shapes of the delta are not those of the stored parameters. *)
Definition must_reject (self : attrs) (body : blob) : Prop :=
  (exists e, loads body = Raise e) \/
  (exists delta current,
      loads body = Ok delta /\
      self !! "weights" = Some (PyWeights current) /\
      shapes current <> shapes delta).

(** *** SparkWorker *)

(** What a worker does that can be seen from outside. *)
Inductive event :=
| Fetch (answer : result weights)        (* get_master_weights(url), and what came back *)
| Load (w : weights)                     (* model.set_weights(w) *)
| Train (X y : list (list Q))            (* model.train_on_batch(X, y) *)
| Submit (d : weights)                   (* send_master_model_deltas(d, url) *)
| Print (line : string).

Record wstate := WState { w_net : net; w_log : list event }.

Definition log (e : event) : py wstate unit :=
  modify (fun s => {| w_net := w_net s; w_log := w_log s ++ [e] |}).

Definition call_get_master_weights (url : pyval) : py wstate weights :=
  let* url := lift (as_str url) in
  fun s => let (r, n) := get_master_weights url (w_net s) in
           (r, {| w_net := n; w_log := w_log s ++ [Fetch r] |}).

Definition call_send_master_model_deltas (deltas : weights) (url : pyval) : py wstate unit :=
  let* url := lift (as_str url) in
  log (Submit deltas) >>
  fun s => let (r, n) := send_master_model_deltas deltas url (w_net s) in
           (r, {| w_net := n; w_log := w_log s |}).

(** [SparkWorker.__init__] *)
Definition SparkWorker_init (json_model optimizer loss train_config frequency
    master_url : pyval) : py attrs unit :=
  set_self_attr "json_model" json_model >>
  set_self_attr "optimizer" optimizer >>
  set_self_attr "loss" loss >>
  set_self_attr "train_config" frequency >>
  set_self_attr "master_url" master_url.

(** [np.asarray(rows).size]: rows of one common length make a matrix,
    anything else an array of row objects. *)
Definition np_size (a : list (list Q)) : nat :=
  match a with
  | [] => 0
  | r :: _ =>
      if forallb (fun r' => length r' =? length r)%nat a
      then (length a * length r)%nat
      else length a
  end.

(** [range(n)], as long as the list fits in memory. *)
Definition py_range (n : Z) : list Z := seqZ 0 n.

(** Line 163: the bounds of the batches, a pair for every [i] in
    [range(0, nb_batch)]. *)
Definition batch_bounds (nb_train_sample batch_size nb_batch : Z) : list (Z * Z) :=
  (fun i => (i * batch_size, Z.min nb_train_sample ((i + 1) * batch_size)))
    <$> py_range nb_batch.

(** [l[start:stop]]: a negative bound counts from the end, and both bounds
    are clamped to the list. *)
Definition clamp (n i : Z) : Z := if i <? 0 then Z.max (i + n) 0 else Z.min i n.
Definition py_slice {A} (l : list A) (start stop : Z) : list A :=
  let n := Z.of_nat (length l) in
  take (Z.to_nat (clamp n stop - clamp n start)) (drop (Z.to_nat (clamp n start)) l).

(** [slice_X(X, ids)] for a list of row numbers: [X[ids]]. *)
Fixpoint slice_X {A} (X : list A) (ids : list nat) : result (list A) :=
  match ids with
  | [] => Ok []
  | i :: ids' =>
      match X !! i, slice_X X ids' with
      | Some x, Ok xs => Ok (x :: xs)
      | None, _ => Raise IndexError
      | _, Raise e => Raise e
      end
  end.

Definition unknown_frequency : string :=
  let nl := Ascii.ascii_of_nat 10 in
  String nl (String nl (String nl "Unknown frequency method.")).

(** The body of the innermost loop of [SparkWorker.train], lines 168-184. *)
Definition train_batch (self : attrs) (x_train y_train : list (list Q))
    (index_array : list nat) (batch : Z * Z) (model : kmodel) : py wstate kmodel :=
  let (batch_start, batch_end) := batch in
  helper "get_master_weights" >>
  let* url := lift (getattr self "master_url") in
  let* weights_before := call_get_master_weights url in
  let* model :=
    (if (0 <? length weights_before)%nat
     then log (Load weights_before) >> ret (set_weights weights_before model)
     else ret model) in
  let batch_ids := py_slice index_array batch_start batch_end in
  let* X := lift (slice_X x_train batch_ids) in
  let* y := lift (slice_X y_train batch_ids) in
  log (Train X y) >>
  let model := train_on_batch X y model in
  let weights_after := get_weights model in
  let* deltas :=
    (if (length weights_before =? length weights_after)%nat
     then helper "subtract_params" >>
          ret (subtract_params weights_before weights_after)
     else ret weights_after) in
  helper "send_master_model_deltas" >>
  let* url := lift (getattr self "master_url") in
  call_send_master_model_deltas deltas url >>
  ret model.

(** [SparkWorker.train], a generator: the value is the list of what it
    yields.  Line 161 is kept for what it can raise; the number it
    computes is bound to [np_batch] and not read again, line 163 reads
    [nb_batch]. *)
Definition SparkWorker_train (self : attrs) (data_iterator : list sample)
    : py wstate (list (list unit)) :=
  helper "tee" >>
  let x_train := fst <$> data_iterator in
  let y_train := snd <$> data_iterator in
  if (np_size x_train =? 0)%nat then ret []
  else
    let* json_model := lookup_global "json_model" in
    let* json := lift (as_str json_model) in
    let model := model_from_json json in
    let* solf := lookup_global "solf" in
    let* optimizer := lift (getattr_val solf "optimizer") in
    let* loss := lift (getattr self "loss") in
    let model := compile optimizer loss model in
    let* train_config := lift (getattr self "train_config") in
    let* nb_epoch := lift (subscript train_config "nb_epoch") in
    let* train_config := lift (getattr self "train_config") in
    let* batch_size := lift (subscript train_config "batch_size") in
    let nb_train_sample := Z.of_nat (length (hd [] x_train)) in
    let* np_batch :=
      (if float_overflows batch_size then raise OverflowError
       else if batch_size =? 0 then raise ZeroDivisionError
       else ret (- ((- nb_train_sample) `div` batch_size))) in
    let index_array := seq 0 (Z.to_nat nb_train_sample) in
    let* nb_batch := lookup_global "nb_batch" in
    let* nb_batch := lift (as_int nb_batch) in
    let batches := batch_bounds nb_train_sample batch_size nb_batch in
    let* frequency := lift (getattr self "frequency") in
    (if eq_str frequency "epoch"
     then
       for_each (py_range nb_epoch) (fun epoch model =>
         if Z.of_nat (length x_train) >? batch_size
         then for_each batches (train_batch self x_train y_train index_array) model
         else ret model) model >>
       ret tt
     else log (Print unknown_frequency)) >>
    ret [[]].

(** *** The coordinator: DistributedModel and SparkModel in the driver *)

Inductive cevent :=
| ServerStarted                          (* self.server.start() *)
| Repartitioned (n : Z)                  (* rdd.repartition(n) *)
| WorkerRan (trace : list event)         (* worker.train on one partition *)
| FinalFetch                             (* get_master_weights(master_url) *)
| Installed (w : weights)                (* master_model.set_weights(w) *)
| ServerStopped.                         (* self.server.terminate(); join() *)

Record cstate := CState { c_self : attrs; c_net : net; c_log : list cevent }.

Definition on_self {A} (m : py attrs A) : py cstate A :=
  fun s => let (r, self') := m (c_self s) in
           (r, {| c_self := self'; c_net := c_net s; c_log := c_log s |}).

Definition on_net {A} (m : net -> result A * net) : py cstate A :=
  fun s => let (r, n) := m (c_net s) in
           (r, {| c_self := c_self s; c_net := n; c_log := c_log s |}).

Definition clog (e : cevent) : py cstate unit :=
  modify (fun s => {| c_self := c_self s; c_net := c_net s; c_log := c_log s ++ [e] |}).

(** [service]: the Flask application is stored, then requests are served
    until the process is terminated; [incoming] is what arrives until then. *)
Definition service (incoming : list request) : py attrs (list response) :=
  set_self_attr "app" (PyOpaque "Flask") >>
  fun self => let (resps, self') := serve incoming self in (Ok resps, self').

Definition start_server : py cstate unit :=
  on_self (set_self_attr "server" PyProcess) >>
  let* server := on_self (self_attr "server") in
  match server with
  | PyProcess =>
      (fun s => (Ok tt, {| c_self := c_self s;
                           c_net := process_start (c_self s) (c_net s);
                           c_log := c_log s |})) >>
      clog ServerStarted
  | _ => raise (AttributeError "start")
  end.

Definition stop_server : py cstate unit :=
  let* server := on_self (self_attr "server") in
  match server with
  | PyProcess =>
      on_net (fun n => (Ok tt, process_terminate n)) >>
      clog ServerStopped
  | _ => raise (AttributeError "terminate")
  end.

Definition get_config : py attrs attrs :=
  let model_config : attrs := ∅ in
  let* mm := self_attr "master_model" in
  let* m := lift (as_model "get_config" mm) in
  let model_config := <["model" := model_get_config m]> model_config in
  let* o := self_attr "optimizer" in
  let* opt := lift (as_optimizer "get_config" o) in
  let model_config := <["optimizer" := optimizer_get_config opt]> model_config in
  let* mode := self_attr "mode" in
  let model_config := <["mode" := mode]> model_config in
  ret model_config.

Definition DistributedModel_predict (data : list (list Q)) : py attrs pyval :=
  let* mm := self_attr "master_model" in
  let* m := lift (as_model "predict" mm) in
  ret (predict data m).

Definition DistributedModel_predict_classes (data : list (list Q)) : py attrs pyval :=
  let* mm := self_attr "master_model" in
  let* m := lift (as_model "predict_classes" mm) in
  ret (predict_classes data m).

Definition DistributedModel_train (parameters : pyval) : py cstate unit :=
  raise NotImplementedError.

Definition get_master_url : py attrs string :=
  let* a := self_attr "master_address" in
  let* address := lift (as_str a) in
  let* port := self_attr "master_port" in
  ret (address +:+ ":" +:+ py_repr port).

(** [SparkModel.__init__] *)
Definition SparkModel_init (sc : pyval) (rdd : list (list sample)) (keras_model : kmodel)
    (optimizer : koptimizer) (num_workers master_port : Z) : py attrs unit :=
  DistributedModel_init keras_model optimizer master_port >>
  set_self_attr "spark_context" sc >>
  set_self_attr "dataset_rdd" (PyRDD rdd) >>
  set_self_attr "num_workers" (PyInt num_workers).

(** [rdd.mapPartitions(worker.train).collect()]: the worker is run on the
    partitions one after the other, each run against the network as the
    previous one left it; the first exception ends the job. *)
Definition mapPartitions_collect (worker : attrs) (parts : list (list sample))
    : py cstate (list (list unit)) :=
  for_each parts (fun part (collected : list (list unit)) s =>
    let (r, ws) := SparkWorker_train worker part {| w_net := c_net s; w_log := [] |} in
    let s' := {| c_self := c_self s; c_net := w_net ws;
                 c_log := c_log s ++ [WorkerRan (w_log ws)] |} in
    match r with
    | Ok yielded => (Ok (collected ++ yielded), s')
    | Raise e => (Raise e, s')
    end) [].

(** [SparkModel._train] *)
Definition SparkModel__train (parameters : pyval) : py cstate unit :=
  let* mm := on_self (self_attr "master_model") in
  let* m := lift (as_model "to_json" mm) in
  let json_model := to_json m in
  let* master_url := on_self get_master_url in
  let* optimizer := on_self (self_attr "optimizer") in
  let* loss := on_self (self_attr "loss") in
  let* frequency := on_self (self_attr "frequency") in
  let worker := snd (SparkWorker_init (PyStr json_model) optimizer loss parameters
                       frequency (PyStr master_url) ∅) in
  let* rdd := on_self (self_attr "dataset_rdd") in
  let* parts := lift (as_rdd "mapPartitions" rdd) in
  mapPartitions_collect worker parts >>
  helper "get_master_weights" >>
  clog FinalFetch >>
  let* new_weights := on_net (get_master_weights master_url) in
  (if negb (length new_weights =? 0)%nat
   then
     let* mm := on_self (self_attr "master_model") in
     let* m := lift (as_model "set_weights" mm) in
     on_self (set_self_attr "master_model" (PyModel (set_weights new_weights m))) >>
     clog (Installed new_weights)
   else ret tt) >>
  stop_server.

(** [SparkModel.train] *)
Definition SparkModel_train (parameters : pyval) : py cstate unit :=
  start_server >>
  let* rdd := on_self (self_attr "dataset_rdd") in
  let* parts := lift (as_rdd "repartition" rdd) in
  let* n := on_self (self_attr "num_workers") in
  let* num_workers := lift (as_int n) in
  on_self (set_self_attr "dataset_rdd" (PyRDD (repartition num_workers parts))) >>
  clog (Repartitioned num_workers) >>
  SparkModel__train parameters.

(** *** The life of a model object *)

Inductive method :=
| M_service (incoming : list request)
| M_start_server
| M_stop_server
| M_get_config
| M_predict (data : list (list Q))
| M_predict_classes (data : list (list Q))
| M_train (parameters : pyval)           (* DistributedModel.train *)
| M_get_master_url
| M_spark_train (parameters : pyval)     (* SparkModel.train *)
| M_spark__train (parameters : pyval).   (* SparkModel._train *)

Definition void {S A} (m : py S A) : py S unit := m >> ret tt.

Definition call (m : method) : py cstate unit :=
  match m with
  | M_service incoming => void (on_self (service incoming))
  | M_start_server => start_server
  | M_stop_server => stop_server
  | M_get_config => void (on_self get_config)
  | M_predict data => void (on_self (DistributedModel_predict data))
  | M_predict_classes data => void (on_self (DistributedModel_predict_classes data))
  | M_train parameters => DistributedModel_train parameters
  | M_get_master_url => void (on_self get_master_url)
  | M_spark_train parameters => SparkModel_train parameters
  | M_spark__train parameters => SparkModel__train parameters
  end.

(** An object made by one of the two constructors. *)
Inductive constructed : attrs -> Prop :=
| constructed_base keras_model optimizer master_port self :
    DistributedModel_init keras_model optimizer master_port ∅ = (Ok tt, self) ->
    constructed self
| constructed_spark sc rdd keras_model optimizer num_workers master_port self :
    SparkModel_init sc rdd keras_model optimizer num_workers master_port ∅ = (Ok tt, self) ->
    constructed self.

(** The states an object made by a constructor goes through when methods
    are called on it, whether they return or raise. *)
Inductive reachable : cstate -> Prop :=
| reachable_new self n :
    constructed self ->
    reachable {| c_self := self; c_net := n; c_log := [] |}
| reachable_call m s r s' :
    reachable s ->
    call m s = (r, s') ->
    reachable s'.

(** What holds of a model object all its life: [mode] is not set, and
    [master_model] and [optimizer] hold a model and an optimizer. *)
Definition no_mode (self : attrs) : Prop :=
  self !! "mode" = None /\
  (exists m, self !! "master_model" = Some (PyModel m)) /\
  (exists o, self !! "optimizer" = Some (PyOptimizer o)).

Definition keeps_attrs {A} (c : py attrs A) : Prop :=
  forall s r s', c s = (r, s') -> no_mode s -> no_mode s'.

Definition keeps {A} (c : py cstate A) : Prop :=
  forall s r s', c s = (r, s') -> no_mode (c_self s) -> no_mode (c_self s').
End Distkeras.

(** ** A concrete setting

    A no-op trainable model whose state is its parameter list, a pickle
    codec over tagged blobs, an in-memory parameter server behind the client
    functions, and an additive update rule. *)

Module Concrete.
(** A pickled byte string: either the pickle of a parameter list or bytes
    that are no pickle at all. *)
Inductive bytes :=
| Pickled (w : weights)
| Garbage.

#[export] Instance handles : Handles :=
  {| kmodel := weights; koptimizer := unit; blob := bytes; net := weights |}.

Definition pickled (w : weights) : blob := Pickled w.
Definition garbage : blob := Garbage.

#[export] Instance keras : Keras :=
  {| model_from_json := fun _ => [NDArray [1%nat] [0%Q]];
     to_json := fun _ => "{}";
     compile := fun _ _ m => m;
     get_weights := fun m => m;
     set_weights := fun w _ => w;
     train_on_batch := fun _ _ m => m;
     constraints := fun _ => PyNone;
     model_get_config := fun _ => PyNone;
     predict := fun _ _ => PyNone;
     predict_classes := fun _ _ => PyNone |}.

#[export] Instance pickle : Pickle :=
  {| dumps := Pickled;
     loads := fun b => match b with
                       | Pickled w => Ok w
                       | Garbage => Raise UnpicklingError
                       end |}.

Definition tensor_add (a b : ndarray) : ndarray :=
  NDArray (shape a) (zip_with Qplus (data a) (data b)).

Definition tensor_sub (a b : ndarray) : ndarray :=
  NDArray (shape a) (zip_with Qminus (data a) (data b)).

(** Modelled from the spec: [distkeras.optimizers] is not among the
    sources.  The additive update rule of the end-to-end property:
    [combine(current, delta)] checks that the two shape sequences agree,
    raises when they do not, and otherwise adds them entry by entry. *)
Definition additive_get_updates (o : unit) (current delta : weights) (c : pyval)
    : result (unit * weights) :=
  if bool_decide (shapes current = shapes delta)
  then Ok (o, zip_with tensor_add current delta)
  else Raise (ValueError "shape mismatch").

#[export] Instance optimizers : Optimizers :=
  {| get_updates := additive_get_updates;
     optimizer_get_config := fun _ => PyNone |}.

(** Modelled from the spec: [distkeras.networking] is not among the
    sources.  Fetch returns the server's current parameters, Submit adds
    the delta to them, and both always answer. *)
#[export] Instance networking : Networking :=
  {| determine_host_address := "10.0.0.1";
     get_master_weights := fun _ n => (Ok n, n);
     send_master_model_deltas := fun d _ n => (Ok tt, zip_with tensor_add n d);
     subtract_params := fun a b => zip_with tensor_sub a b |}.

#[export] Instance spark : Spark :=
  {| repartition := fun _ parts => parts |}.

#[export] Instance processes : Processes :=
  {| process_start := fun _ n => n;
     process_terminate := fun n => n |}.

(** The names the star imports are used for, and nothing else. *)
Definition star_imports : attrs :=
  list_to_map ((fun name => (name, PyOpaque "function")) <$>
    ["determine_host_address"; "get_master_weights";
     "send_master_model_deltas"; "subtract_params"; "tee"]).

(** The same namespace after the four stray names have been assigned to
    the module from outside. *)
Definition patched (nb_batch : Z) : attrs :=
  <["picle" := PyPickle]>
  (<["json_model" := PyStr "{}"]>
  (<["solf" := PyObject {["optimizer" := PyOpaque "sgd"]}]>
  (<["nb_batch" := PyInt nb_batch]> star_imports))).

Definition vec (x : Q) : ndarray := NDArray [1%nat] [x].

(** The end-to-end example: a server started on [[1.0],[2.0]] and the
    difference [[0.5],[-0.5]]. *)
Definition initial_parameters : weights := [vec 1; vec 2].
Definition difference : weights := [vec (1 # 2); vec (- 1 # 2)].
Definition server0 : attrs :=
  snd (DistributedModel_init star_imports initial_parameters tt 5000 ∅).

(** A train configuration. *)
Definition config (nb_epoch batch_size : Z) : pyval :=
  PyDict (<["nb_epoch" := nb_epoch]> {["batch_size" := batch_size]}).

(** A worker made by the constructor, as [SparkWorker(json, sgd, mse,
    train_config, frequency, url)], to which [frequency] is assigned
    afterwards.  The constructor keeps its [frequency] argument under
    [train_config], so that is where the configuration has to be passed. *)
Definition worker (policy : string) (nb_epoch batch_size : Z) : attrs :=
  <["frequency" := PyStr policy]>
    (snd (SparkWorker_init (PyStr "{}") (PyOpaque "sgd") (PyOpaque "mse") PyNone
            (config nb_epoch batch_size) (PyStr "10.0.0.1:5000") ∅)).

(** A partition of [n] records of one feature each. *)
Definition records (n : nat) : list sample := replicate n ([1%Q], [0%Q]).

(** The worker's view when it starts: the server holds [[1.0],[2.0]]. *)
Definition start : wstate := {| w_net := initial_parameters; w_log := [] |}.

(** Two Submits and a Fetch that arrive together, and a schedule under
    which the second Submit and the Fetch find the lock taken, the Fetch
    gets it next and the second Submit last. *)
Definition three_requests : list request :=
  [POST_update (pickled difference); POST_update (pickled difference); GET_parameters].
Definition interleaving : list nat :=
  [0; 0; 1; 1; 2; 0; 1; 0; 0; 2; 2; 2; 2; 1; 1; 1; 1; 1]%nat.
End Concrete.


(** ** Further definitions *)

Section Further.
Context `{Handles} `{!Keras} `{!Pickle} `{!Optimizers} `{!Networking}
        `{!Spark} `{!Processes}.

(** [to_simple_rdd(sc, features, labels)]; [parallelize] is
    [sc.parallelize]. *)
Definition to_simple_rdd (parallelize : list sample -> list (list sample))
    (features labels : list (list Q)) : list (list sample) :=
  let pairs := zip features labels in
  parallelize pairs.

(** The store of the server as the update rule sees it, the optimizer and
    the parameters, and what one request makes of it: a Submit whose body
    unpickles and whose delta the rule accepts replaces both, anything
    else leaves them. *)
Definition store_after (constraints : pyval) (store : koptimizer * weights)
    (r : request) : koptimizer * weights :=
  match r with
  | GET_parameters => store
  | POST_update body =>
      match loads body with
      | Ok delta =>
          match get_updates (fst store) (snd store) delta constraints with
          | Ok store' => store'
          | Raise _ => store
          end
      | Raise _ => store
      end
  end.

(** A server object as the constructor leaves it and the views keep it. *)
Definition serving (self : attrs) (m : kmodel) (store : koptimizer * weights) : Prop :=
  self !! "mutex" = Some PyLock /\
  self !! "master_model" = Some (PyModel m) /\
  self !! "optimizer" = Some (PyOptimizer (fst store)) /\
  self !! "weights" = Some (PyWeights (snd store)).

(** A partition whose feature array has size zero. *)
Definition featureless (part : list sample) : Prop :=
  np_size (fst <$> part) = 0%nat.

(** A Spark model on which [_train] finds every attribute it reads:
    the model [m], the pieces of the master URL [url], [optimizer],
    [loss] and [frequency], the partitions, and a started server. *)
Definition ready (self : attrs) (m : kmodel) (url : string)
    (parts : list (list sample)) : Prop :=
  self !! "master_model" = Some (PyModel m) /\
  (exists address port,
      self !! "master_address" = Some (PyStr address) /\
      self !! "master_port" = Some port /\
      url = address +:+ ":" +:+ py_repr port) /\
  is_Some (self !! "optimizer") /\
  is_Some (self !! "loss") /\
  is_Some (self !! "frequency") /\
  self !! "dataset_rdd" = Some (PyRDD parts) /\
  self !! "server" = Some PyProcess.

Variable globals : attrs.

(** The life of a model object in the driver: the methods called on it,
    one after the other, whether they return or raise. *)
Definition calls (ms : list method) (s : cstate) : cstate :=
  foldl (fun s m => snd (call globals m s)) s ms.

(** The attributes that the methods assign. *)
Definition written : list string :=
  ["app"; "server"; "dataset_rdd"; "master_model"; "optimizer"; "weights"].

(** A computation that leaves every other attribute of the object as it
    was. *)
Definition frames {A} (c : py cstate A) : Prop :=
  forall s name, name ∉ written -> c_self (snd (c s)) !! name = c_self s !! name.
End Further.

(** ** Further concrete settings *)

Module Scenario.
Import Concrete.

(** The namespace with [picle] bound to the pickle module. *)
Definition with_pickle : attrs := <["picle" := PyPickle]> star_imports.

(** A record without features. *)
Definition bare : sample := ([], [0%Q]).


(** A Spark model made by the constructor on two empty partitions, to
    which [loss] and [frequency] are assigned and whose server has been
    started. *)
Definition spark0 : attrs :=
  snd (SparkModel_init star_imports (PyOpaque "sc") [[]; []] initial_parameters tt 2 5000 ∅).
Definition ready_model : attrs :=
  <["server" := PyProcess]>
    (<["frequency" := PyStr "epoch"]> (<["loss" := PyOpaque "mse"]> spark0)).
Definition driver (self : attrs) (n : weights) : cstate :=
  {| c_self := self; c_net := n; c_log := [] |}.

(** A parameter server that answers no Fetch. *)
Definition unreachable : Networking :=
  {| determine_host_address := "10.0.0.1";
     get_master_weights := fun _ n => (Raise (HTTPError 500), n);
     send_master_model_deltas := fun d _ n => (Ok tt, n);
     subtract_params := fun a b => zip_with tensor_sub a b |}.

(** An optimizer whose update rule compares no shapes: it adds tensor by
    tensor as far as both lists go, as
    [[w + d for w, d in zip(weights, delta)]] does. *)
Definition unchecked : Optimizers :=
  {| get_updates := fun o current delta _ => Ok (o, zip_with tensor_add current delta);
     optimizer_get_config := fun _ => PyNone |}.

(** A worker made by the constructor, as [SparkWorker(json, sgd, mse,
    train_config, frequency, url)]. *)
Definition built_worker (train_config : pyval) (frequency : string) : attrs :=
  snd (SparkWorker_init (PyStr "{}") (PyOpaque "sgd") (PyOpaque "mse") train_config
         (PyStr frequency) (PyStr "10.0.0.1:5000") ∅).

(** The worker's view of a server that holds no parameters yet. *)
Definition cold : wstate := {| w_net := @nil ndarray; w_log := [] |}.

(** [sc.parallelize] that makes one partition of everything. *)
Definition one_partition (pairs : list sample) : list (list sample) := [pairs].
End Scenario.
(** * The parameter server *)

Ltac py_simpl :=
  unfold pickle_master_weights, updated_weights in *;
  unfold bind, ret, raise, lift, get, modify, self_attr, set_self_attr,
    with_lock, lookup_global, helper, getattr in *; simpl in *.

(** Lookups in an object that is a chain of assignments. *)
Ltac map_step :=
  first [ rewrite lookup_insert_eq
        | rewrite lookup_insert_ne by (intros [=])
        | rewrite lookup_empty ].

Section Server.
Context `{Handles} `{!Keras} `{!Pickle} `{!Optimizers}.
Variable globals : attrs.

(** The view of [GET /parameters] never writes to the object. *)
Lemma route_parameters_pure self :
  snd (route_parameters globals self) = self.
Proof.
  unfold route_parameters, getattr. py_simpl.
  destruct (self !! "mutex") as [[]|]; simpl; try reflexivity.
  destruct (globals !! "picle") as [picle|]; simpl; [|reflexivity].
  destruct (attr_dumps picle); simpl; [|reflexivity].
  destruct (self !! "master_model") as [mm|]; simpl; [|reflexivity].
  destruct (as_model _ mm); reflexivity.
Qed.

(** It reads the lock and the model, and nothing else of the object. *)
Lemma route_parameters_reads self1 self2 :
  self1 !! "mutex" = self2 !! "mutex" ->
  self1 !! "master_model" = self2 !! "master_model" ->
  fst (route_parameters globals self1) = fst (route_parameters globals self2).
Proof.
  intros Hmutex Hmodel. unfold route_parameters, getattr. py_simpl.
  rewrite Hmutex. destruct (self2 !! "mutex") as [[]|]; simpl; try reflexivity.
  destruct (globals !! "picle") as [picle|]; simpl; [|reflexivity].
  destruct (attr_dumps picle); simpl; [|reflexivity].
  rewrite Hmodel. destruct (self2 !! "master_model") as [mm|]; simpl; [|reflexivity].
  destruct (as_model _ mm); reflexivity.
Qed.

(** With [picle] unbound the view raises, whatever the object. *)
Lemma route_parameters_unbound self :
  globals !! "picle" = None ->
  exists e, route_parameters globals self = (Raise e, self).
Proof.
  intros Hpicle. unfold route_parameters, getattr. py_simpl.
  destruct (self !! "mutex") as [[]|]; simpl; eauto.
  rewrite Hpicle. eauto.
Qed.

(** The view of [POST /update] writes [optimizer] and [weights] only. *)
Lemma update_parameters_frame body self name :
  name <> "optimizer" -> name <> "weights" ->
  snd (update_parameters body self) !! name = self !! name.
Proof.
  intros Ho Hw. unfold update_parameters, getattr. py_simpl.
  destruct (loads body) as [delta|]; simpl; [|reflexivity].
  destruct (self !! "mutex") as [[]|]; simpl; try reflexivity.
  destruct (self !! "master_model") as [mm|]; simpl; [|reflexivity].
  destruct (as_model _ mm) as [m|]; simpl; [|reflexivity].
  destruct (self !! "optimizer") as [o|]; simpl; [|reflexivity].
  destruct (as_optimizer _ o) as [opt|]; simpl; [|reflexivity].
  destruct (self !! "weights") as [w|]; simpl; [|reflexivity].
  destruct (as_weights w) as [current|]; simpl; [|reflexivity].
  destruct (get_updates opt current delta (constraints m)) as [[opt' new]|];
    simpl; [|reflexivity].
  rewrite lookup_insert_ne by congruence.
  rewrite lookup_insert_ne by congruence. reflexivity.
Qed.

(** When it raises, it has written nothing. *)
Lemma update_parameters_raise body self e self' :
  update_parameters body self = (Raise e, self') -> self' = self.
Proof.
  unfold update_parameters, getattr. py_simpl.
  destruct (loads body) as [delta|]; simpl; [|congruence].
  destruct (self !! "mutex") as [[]|]; simpl; try congruence.
  destruct (self !! "master_model") as [mm|]; simpl; [|congruence].
  destruct (as_model _ mm) as [m|]; simpl; [|congruence].
  destruct (self !! "optimizer") as [o|]; simpl; [|congruence].
  destruct (as_optimizer _ o) as [opt|]; simpl; [|congruence].
  destruct (self !! "weights") as [w|]; simpl; [|congruence].
  destruct (as_weights w) as [current|]; simpl; [|congruence].
  destruct (get_updates opt current delta (constraints m)) as [[opt' new]|];
    simpl; congruence.
Qed.

(** What a Submit that goes through does to the object. *)
Lemma update_parameters_ok body self delta m opt current opt' new :
  loads body = Ok delta ->
  self !! "mutex" = Some PyLock ->
  self !! "master_model" = Some (PyModel m) ->
  self !! "optimizer" = Some (PyOptimizer opt) ->
  self !! "weights" = Some (PyWeights current) ->
  get_updates opt current delta (constraints m) = Ok (opt', new) ->
  update_parameters body self =
    (Ok PyNone, <["weights" := PyWeights new]> (<["optimizer" := PyOptimizer opt']> self)).
Proof.
  intros Hl Hmu Hm Ho Hw Hu. unfold update_parameters, getattr. py_simpl.
  rewrite Hl; simpl. rewrite Hmu; simpl. rewrite Hm; simpl. rewrite Ho; simpl.
  rewrite Hw; simpl. rewrite Hu; simpl. reflexivity.
Qed.

(** A Submit either raises and leaves the object alone, or rebinds
    [optimizer] and [weights]. *)
Lemma update_parameters_cases body self :
  snd (update_parameters body self) = self \/
  exists opt' new,
    snd (update_parameters body self) =
      <["weights" := PyWeights new]> (<["optimizer" := PyOptimizer opt']> self).
Proof.
  unfold update_parameters. py_simpl.
  destruct (loads body) as [delta|]; simpl; [|by left].
  destruct (self !! "mutex") as [[]|]; simpl; try by left.
  destruct (self !! "master_model") as [mm|]; simpl; [|by left].
  destruct (as_model _ mm) as [m|]; simpl; [|by left].
  destruct (self !! "optimizer") as [o|]; simpl; [|by left].
  destruct (as_optimizer _ o) as [opt|]; simpl; [|by left].
  destruct (self !! "weights") as [w|]; simpl; [|by left].
  destruct (as_weights w) as [current|]; simpl; [|by left].
  destruct (get_updates opt current delta (constraints m)) as [[opt' new]|];
    simpl; [|by left].
  right. eauto.
Qed.

(** Every Submit is answered with a 500: the view returns [None]. *)
Lemma handle_update_500 body self :
  fst (handle globals (POST_update body) self) = HTTP500.
Proof.
  unfold handle.
  destruct (update_parameters body self) as [[rv|e] self'] eqn:E; [|reflexivity].
  simpl. unfold update_parameters in E. py_simpl.
  destruct (loads body); simpl in E; [|congruence].
  match type of E with
  | match ?c with _ => _ end = _ => destruct c as [[?|?] ?]
  end; inversion E; reflexivity.
Qed.
End Server.

Section ServerClaims.
Context `{Handles} `{!Keras} `{!Pickle} `{!Optimizers} `{!Networking}.
Variable globals : attrs.

Lemma handle_frame r self name :
  name <> "optimizer" -> name <> "weights" ->
  snd (handle globals r self) !! name = self !! name.
Proof.
  intros Ho Hw. unfold handle. destruct r as [|body].
  - pose proof (route_parameters_pure globals self) as Hp.
    destruct (route_parameters globals self) as [[rv|e] self']; simpl in *;
      subst; reflexivity.
  - pose proof (update_parameters_frame body self name Ho Hw) as Hf.
    destruct (update_parameters body self) as [[rv|e] self']; simpl in *;
      exact Hf.
Qed.

Lemma serve_frame rs self name :
  name <> "optimizer" -> name <> "weights" ->
  snd (serve globals rs self) !! name = self !! name.
Proof.
  intros Ho Hw. revert self. induction rs as [|r rs IH]; intros self; simpl.
  - reflexivity.
  - pose proof (handle_frame r self name Ho Hw) as Hf.
    destruct (handle globals r self) as [resp self']; simpl in Hf.
    specialize (IH self').
    destruct (serve globals rs self') as [resps self'']; simpl in *.
    congruence.
Qed.

Lemma DistributedModel_init_mutex keras_model optimizer master_port self :
  DistributedModel_init globals keras_model optimizer master_port ∅ = (Ok tt, self) ->
  self !! "mutex" = Some PyLock.
Proof.
  unfold DistributedModel_init. py_simpl.
  rewrite lookup_insert_eq; simpl.
  destruct (globals !! "determine_host_address"); simpl; [|congruence].
  intros [= <-]. apply lookup_insert_eq.
Qed.

(** C1 (the code does not do this).  Fetch is claimed to succeed whenever
    the server is up.  The view of [GET /parameters] calls [picle.dumps],
    and [picle] is a name this module never binds: on the object made by
    the constructor, and after any requests already served, the view
    raises [NameError] and the request is answered with a 500. *)
Theorem fetch_raises_name_error keras_model optimizer master_port self0 rs self :
  globals !! "picle" = None ->
  DistributedModel_init globals keras_model optimizer master_port ∅ = (Ok tt, self0) ->
  self = snd (serve globals rs self0) ->
  route_parameters globals self = (Raise (NameError "picle"), self) /\
  handle globals GET_parameters self = (HTTP500, self).
Proof.
  intros Hpicle Hinit ->.
  assert (Hmutex : snd (serve globals rs self0) !! "mutex" = Some PyLock).
  { rewrite serve_frame by congruence. eapply DistributedModel_init_mutex, Hinit. }
  set (self := snd (serve globals rs self0)) in *.
  assert (Hroute : route_parameters globals self = (Raise (NameError "picle"), self)).
  { unfold route_parameters. py_simpl. rewrite Hmutex; simpl. rewrite Hpicle.
    reflexivity. }
  split; [exact Hroute|]. unfold handle. rewrite Hroute. reflexivity.
Qed.

(** C2 (the code does not do this).  A Fetch right after a Submit is
    claimed to reflect the Submit.  The view of [POST /update] rebinds
    [self.weights], the view of [GET /parameters] pickles
    [self.master_model.get_weights()]: whatever the namespace, the object
    and the body, the answer to a Fetch is the same after the Submit as
    before it. *)
Theorem fetch_after_submit_unchanged self body :
  fst (handle globals GET_parameters (snd (handle globals (POST_update body) self)))
  = fst (handle globals GET_parameters self).
Proof.
  pose proof (handle_frame (POST_update body) self "mutex") as Hmutex.
  pose proof (handle_frame (POST_update body) self "master_model") as Hmodel.
  set (self' := snd (handle globals (POST_update body) self)) in *.
  pose proof (route_parameters_reads globals self' self) as Hreads.
  unfold handle.
  destruct (route_parameters globals self') as [r1 s1].
  destruct (route_parameters globals self) as [r2 s2]. simpl in Hreads.
  rewrite Hreads by (first [apply Hmutex | apply Hmodel]; congruence).
  destruct r2; reflexivity.
Qed.

(** C6 (amended).  The server compares no shapes.  A Submit whose body
    does not unpickle is answered with a 500, leaves the object exactly as
    it was, and the server goes on to serve the requests that follow from
    that unchanged object.  A body that does unpickle is handed to the
    update rule as it is: when the rule raises, the Submit fails in the
    same way; when the rule returns, what it returns is stored, whether or
    not the shapes of the delta were those of the stored parameters. *)
Theorem failed_submit_leaves_store self body rest :
  let rejected :=
    handle globals (POST_update body) self = (HTTP500, self) /\
    serve globals (POST_update body :: rest) self =
      (HTTP500 :: fst (serve globals rest self), snd (serve globals rest self)) in
  ((exists e, loads body = Raise e) -> rejected) /\
  (forall delta m store,
      loads body = Ok delta ->
      serving self m store ->
      match get_updates (fst store) (snd store) delta (constraints m) with
      | Raise _ => rejected
      | Ok (opt', new) =>
          handle globals (POST_update body) self =
            (HTTP500,
             <["weights" := PyWeights new]> (<["optimizer" := PyOptimizer opt']> self))
      end).
Proof.
  intros rejected.
  assert (Hraise : forall e, update_parameters body self = (Raise e, self) -> rejected).
  { intros e He.
    assert (Hh : handle globals (POST_update body) self = (HTTP500, self)).
    { unfold handle. rewrite He. reflexivity. }
    split; [exact Hh|]. simpl. rewrite Hh.
    destruct (serve globals rest self); reflexivity. }
  split.
  - intros [e He]. apply (Hraise e).
    unfold update_parameters. py_simpl. rewrite He. reflexivity.
  - intros delta m [opt current] Hl (Hmu & Hm & Ho & Hw). simpl in Ho, Hw. simpl.
    destruct (get_updates opt current delta (constraints m)) as [[opt' new]|e] eqn:Hu.
    + unfold handle.
      rewrite (update_parameters_ok body self delta m opt current opt' new
                 Hl Hmu Hm Ho Hw Hu).
      reflexivity.
    + apply (Hraise e).
      unfold update_parameters, getattr. py_simpl.
      rewrite Hl; simpl. rewrite Hmu; simpl. rewrite Hm; simpl. rewrite Ho; simpl.
      rewrite Hw; simpl. rewrite Hu; simpl. reflexivity.
Qed.
End ServerClaims.

Section ServerExamples.
Import Concrete.

Lemma fetch_raises_name_error_witness :
  star_imports !! "picle" = None /\
  DistributedModel_init star_imports initial_parameters tt 5000 ∅ = (Ok tt, server0) /\
  route_parameters star_imports (snd (serve star_imports [POST_update (pickled difference)] server0))
    = (Raise (NameError "picle"),
       snd (serve star_imports [POST_update (pickled difference)] server0)).
Proof.
  split; [reflexivity|]. split; [vm_compute; reflexivity|].
  apply (fetch_raises_name_error star_imports initial_parameters tt 5000
           server0 [POST_update (pickled difference)]);
    [reflexivity | vm_compute; reflexivity | reflexivity].
Defined.

Lemma server0_serving : serving server0 initial_parameters (tt, initial_parameters).
Proof. repeat split; vm_compute; reflexivity. Qed.

(** A body that is no pickle, and, with the additive rule that validates
    shapes, a delta of one tensor against the two that are stored. *)
Lemma failed_submit_leaves_store_witness :
  handle star_imports (POST_update garbage) server0 = (HTTP500, server0) /\
  handle star_imports (POST_update (pickled [vec 1])) server0 = (HTTP500, server0).
Proof.
  split.
  - apply (proj1 (failed_submit_leaves_store star_imports server0 garbage [])).
    exists UnpicklingError. reflexivity.
  - assert (Hl : loads (pickled [vec 1]) = Ok [vec 1]) by reflexivity.
    pose proof (proj2 (failed_submit_leaves_store star_imports server0
                         (pickled [vec 1]) [])
                  [vec 1] initial_parameters (tt, initial_parameters) Hl server0_serving)
      as Hrule.
    exact (proj1 Hrule).
Defined.

(** C3 (the code does not do this).  The end-to-end example: the server is
    started on [[1.0],[2.0]] with the additive rule and the difference
    [[0.5],[-0.5]] is submitted.  The Submit does rebind [self.weights] to
    [[1.5],[1.5]], but the Fetch that follows is answered with a 500; and
    once [picle] is bound to the pickle module it answers with the pickle
    of [[1.0],[2.0]], the parameters of [self.master_model]. *)
Theorem end_to_end_fetch_misses_update :
  DistributedModel_init star_imports initial_parameters tt 5000 ∅ = (Ok tt, server0) /\
  fst (serve star_imports
         [POST_update (pickled difference); GET_parameters] server0)
    = [HTTP500; HTTP500] /\
  snd (serve star_imports
         [POST_update (pickled difference); GET_parameters] server0) !! "weights"
    = Some (PyWeights [vec (3 # 2); vec (3 # 2)]) /\
  fst (serve (<["picle" := PyPickle]> star_imports)
         [POST_update (pickled difference); GET_parameters] server0)
    = [HTTP500; HTTP200 (pickled [vec 1; vec 2])].
Proof. repeat split; vm_compute; reflexivity. Qed.
End ServerExamples.

Section UncheckedRule.
Import Concrete Scenario.
#[local] Existing Instance unchecked | 0.

(** C6, as it was stated, fails: the server made by the constructor for
    an optimizer whose rule compares no shapes, holding the two tensors
    [[1.0],[2.0]], and a Submit of the single tensor [[1.0]].  The shapes
    of the delta are not those of the stored parameters, and after the
    Submit the store holds one tensor, [[2.0]]. *)
Lemma mismatched_submit_replaces_store :
  DistributedModel_init star_imports initial_parameters tt 5000 ∅ = (Ok tt, server0) /\
  must_reject server0 (pickled [vec 1]) /\
  server0 !! "weights" = Some (PyWeights [vec 1; vec 2]) /\
  snd (handle star_imports (POST_update (pickled [vec 1])) server0) !! "weights"
    = Some (PyWeights [vec 2]).
Proof.
  split; [vm_compute; reflexivity|]. split.
  - right. exists [vec 1], initial_parameters.
    split; [reflexivity|]. split; [vm_compute; reflexivity|]. discriminate.
  - split; vm_compute; reflexivity.
Qed.
End UncheckedRule.

(** * The worker *)

Section Worker.
Context `{Handles} `{!Keras} `{!Networking}.
Variable globals : attrs.

(** One pass through the body of the innermost loop, lines 168-184, when
    the server answers and the rows are there: what is loaded, what is
    trained on, and what is submitted. *)
Lemma train_batch_step self x_train y_train index_array batch_start batch_end
    model url s w n1 X y n2 :
  is_Some (globals !! "get_master_weights") ->
  is_Some (globals !! "subtract_params") ->
  is_Some (globals !! "send_master_model_deltas") ->
  self !! "master_url" = Some (PyStr url) ->
  get_master_weights url (w_net s) = (Ok w, n1) ->
  slice_X x_train (py_slice index_array batch_start batch_end) = Ok X ->
  slice_X y_train (py_slice index_array batch_start batch_end) = Ok y ->
  let model1 := if (0 <? length w)%nat then set_weights w model else model in
  let model2 := train_on_batch X y model1 in
  let weights_after := get_weights model2 in
  let deltas := if (length w =? length weights_after)%nat
                then subtract_params w weights_after
                else weights_after in
  send_master_model_deltas deltas url n1 = (Ok tt, n2) ->
  train_batch globals self x_train y_train index_array (batch_start, batch_end) model s
  = (Ok model2,
     {| w_net := n2;
        w_log := w_log s ++
                 Fetch (Ok w) :: (if (0 <? length w)%nat then [Load w] else [])
                   ++ [Train X y; Submit deltas] |}).
Proof.
  intros [? Hg] [? Hs] [? Hd] Hurl Hfetch HX Hy model1 model2 weights_after deltas Hsend.
  unfold train_batch, call_get_master_weights, call_send_master_model_deltas, log.
  py_simpl. rewrite Hg, Hurl; simpl. rewrite Hfetch; simpl.
  subst deltas weights_after model2 model1.
  destruct (0 <? length w)%nat; simpl; rewrite HX, Hy; simpl;
    (destruct (length w =? _)%nat; simpl; rewrite ?Hs, Hd; simpl;
     rewrite Hsend; simpl; rewrite <- !app_assoc; reflexivity).
Qed.

(** C5.  On an empty partition [SparkWorker.train] ends at its first
    [return]: nothing is yielded, no exception is raised, and the state is
    the one it started in, so no Fetch and no Submit has been made. *)
Theorem empty_partition_is_a_no_op self s :
  is_Some (globals !! "tee") ->
  SparkWorker_train globals self [] s = (Ok [], s).
Proof.
  intros [? Htee]. unfold SparkWorker_train. py_simpl. rewrite Htee. reflexivity.
Qed.

(** As the module stands, a partition with features stops at the first
    stray name, before any exchange with the server. *)
Lemma nonempty_partition_name_error self data s :
  is_Some (globals !! "tee") ->
  globals !! "json_model" = None ->
  np_size (fst <$> data) <> 0%nat ->
  SparkWorker_train globals self data s = (Raise (NameError "json_model"), s).
Proof.
  intros [? Htee] Hjson Hsize. unfold SparkWorker_train. py_simpl.
  rewrite Htee; simpl.
  destruct (np_size (fst <$> data) =? 0)%nat eqn:E.
  { apply Nat.eqb_eq in E. contradiction. }
  rewrite Hjson. reflexivity.
Qed.

(** On a partition without features [train] ends at its first [return],
    whatever the object. *)
Lemma SparkWorker_train_featureless self data s :
  is_Some (globals !! "tee") ->
  np_size (fst <$> data) = 0%nat ->
  SparkWorker_train globals self data s = (Ok [], s).
Proof.
  intros [? Htee] Hsize. unfold SparkWorker_train. py_simpl.
  rewrite Htee, Hsize. reflexivity.
Qed.

(** On a partition with features, a worker made by the constructor runs
    into one of the stray names, or into [train_config] holding what was
    passed as [frequency], or at the latest into [self.frequency], which
    the constructor does not set: every path raises, and none has reached
    the server. *)
Lemma SparkWorker_init_train_raises json_model optimizer loss train_config
    frequency master_url data s :
  np_size (fst <$> data) <> 0%nat ->
  exists e,
    SparkWorker_train globals
      (snd (SparkWorker_init json_model optimizer loss train_config frequency
              master_url ∅)) data s
    = (Raise e, s).
Proof.
  intros Hsize. unfold SparkWorker_train, SparkWorker_init. py_simpl.
  destruct (globals !! "tee"); simpl; [|eauto].
  destruct (np_size (fst <$> data) =? 0)%nat eqn:E.
  { apply Nat.eqb_eq in E. contradiction. }
  destruct (globals !! "json_model") as [jm|]; simpl; [|eauto].
  destruct (as_str jm) as [json|]; simpl; [|eauto].
  destruct (globals !! "solf") as [solf|]; simpl; [|eauto].
  destruct (getattr_val solf "optimizer") as [opt|]; simpl; [|eauto].
  repeat (map_step; simpl).
  destruct (subscript frequency "nb_epoch") as [nb_epoch|]; simpl; [|eauto].
  destruct (subscript frequency "batch_size") as [batch_size|]; simpl; [|eauto].
  destruct (float_overflows batch_size); simpl; [eauto|].
  destruct (batch_size =? 0); simpl; [eauto|].
  destruct (globals !! "nb_batch") as [nb|]; simpl; [|eauto].
  destruct (as_int nb) as [nb_batch|]; simpl; eauto.
Qed.

(** C4 (the code does not do this).  A worker with the per-batch policy is
    claimed to fetch, train and submit for every batch of every epoch.
    The worker that the constructor makes for the frequency ['epoch'], on
    any partition with features, raises before it has fetched anything,
    whatever the other arguments and whatever the module namespace; and
    with [json_model] unbound, as the module has it, what it raises is
    [NameError] at line 155.  The state is the one it started in: no
    Fetch, no training step and no Submit has been made. *)
Theorem per_batch_worker_raises_before_fetching json_model optimizer loss train_config
    master_url data s :
  np_size (fst <$> data) <> 0%nat ->
  let self := snd (SparkWorker_init json_model optimizer loss train_config
                     (PyStr "epoch") master_url ∅) in
  (exists e, SparkWorker_train globals self data s = (Raise e, s)) /\
  (is_Some (globals !! "tee") -> globals !! "json_model" = None ->
   SparkWorker_train globals self data s = (Raise (NameError "json_model"), s)).
Proof.
  intros Hsize self. split.
  - apply SparkWorker_init_train_raises, Hsize.
  - intros Htee Hjson. apply nonempty_partition_name_error; assumption.
Qed.

End Worker.

(** * The coordinator *)

Section Coordinator.
Context `{Handles} `{!Keras} `{!Pickle} `{!Optimizers} `{!Networking}
        `{!Spark} `{!Processes}.
Variable globals : attrs.

(** What [DistributedModel.__init__] leaves in the object. *)
Lemma DistributedModel_init_attrs keras_model optimizer master_port self :
  DistributedModel_init globals keras_model optimizer master_port ∅ = (Ok tt, self) ->
  self = <["mutex" := PyLock]>
         (<["optimizer" := PyOptimizer optimizer]>
         (<["master_port" := PyInt master_port]>
         (<["master_address" := PyStr determine_host_address]>
         (<["weights" := PyWeights (get_weights keras_model)]>
         (<["master_model" := PyModel keras_model]> ∅))))).
Proof.
  unfold DistributedModel_init. py_simpl. rewrite lookup_insert_eq; simpl.
  destruct (globals !! "determine_host_address"); simpl;
    [intros [= <-]; reflexivity | congruence].
Qed.

(** What [SparkModel.__init__] leaves in the object. *)
Lemma SparkModel_init_attrs sc rdd keras_model optimizer num_workers master_port self :
  SparkModel_init globals sc rdd keras_model optimizer num_workers master_port ∅
    = (Ok tt, self) ->
  exists base,
    DistributedModel_init globals keras_model optimizer master_port ∅ = (Ok tt, base) /\
    self = <["num_workers" := PyInt num_workers]>
           (<["dataset_rdd" := PyRDD rdd]>
           (<["spark_context" := sc]> base)).
Proof.
  unfold SparkModel_init. unfold bind at 1.
  destruct (DistributedModel_init globals keras_model optimizer master_port ∅)
    as [[[]|e] base]; [|congruence].
  py_simpl. intros [= <-]. eauto.
Qed.

(** C9 (the code does not do this).  [SparkModel.train] is claimed to run
    the whole round: start the server, repartition, run the workers, fetch
    and install the final parameters, stop the server.  On a model made by
    the constructor it starts the server, repartitions, and then raises
    [AttributeError] when [_train] reads [self.loss], which nothing sets:
    no worker is run, nothing is fetched or installed, and the server is
    left running. *)
Theorem coordinator_train_raises sc rdd keras_model optimizer num_workers
    master_port self parameters n :
  SparkModel_init globals sc rdd keras_model optimizer num_workers master_port ∅
    = (Ok tt, self) ->
  SparkModel_train globals parameters {| c_self := self; c_net := n; c_log := [] |}
  = (Raise (AttributeError "loss"),
     {| c_self := <["dataset_rdd" := PyRDD (repartition num_workers rdd)]>
                    (<["server" := PyProcess]> self);
        c_net := process_start (<["server" := PyProcess]> self) n;
        c_log := [ServerStarted; Repartitioned num_workers] |}).
Proof.
  intros Hinit. destruct (SparkModel_init_attrs _ _ _ _ _ _ _ Hinit) as (base & Hbase & ->).
  apply DistributedModel_init_attrs in Hbase as ->.
  unfold SparkModel_train, SparkModel__train, start_server, get_master_url,
    on_self, clog.
  py_simpl.
  repeat (map_step; simpl). reflexivity.
Qed.

(** *** [get_config] and the [mode] attribute *)

Lemma keeps_bind {A B} (c : py cstate A) (k : A -> py cstate B) :
  keeps c -> (forall a, keeps (k a)) -> keeps (bind c k).
Proof.
  intros Hc Hk s r s'. unfold bind.
  destruct (c s) as [[a|e] s1] eqn:E.
  - intros Ek Hs. eapply Hk; [exact Ek|]. eapply Hc; eauto.
  - intros [= <- <-] Hs. eapply Hc; eauto.
Qed.

Lemma keeps_same {A} (c : py cstate A) :
  (forall s, c_self (snd (c s)) = c_self s) -> keeps c.
Proof.
  intros Hc s r s' E Hs. specialize (Hc s). rewrite E in Hc. simpl in Hc.
  by rewrite Hc.
Qed.

Lemma keeps_on_self {A} (c : py attrs A) : keeps_attrs c -> keeps (on_self c).
Proof.
  intros Hc s r s'. unfold on_self.
  destruct (c (c_self s)) as [r1 self'] eqn:E. intros [= <- <-] Hs.
  simpl. eapply Hc; eauto.
Qed.

Lemma keeps_attrs_same {A} (c : py attrs A) :
  (forall s, snd (c s) = s) -> keeps_attrs c.
Proof.
  intros Hc s r s' E Hs. specialize (Hc s). rewrite E in Hc. simpl in Hc.
  by subst.
Qed.

Lemma no_mode_insert self name v :
  name <> "mode" -> name <> "master_model" -> name <> "optimizer" ->
  no_mode self -> no_mode (<[name := v]> self).
Proof.
  intros Hn1 Hn2 Hn3 (Hm & Hmm & Ho). unfold no_mode.
  rewrite !lookup_insert_ne by done. auto.
Qed.

Lemma no_mode_insert_model self m :
  no_mode self -> no_mode (<["master_model" := PyModel m]> self).
Proof.
  intros (Hm & Hmm & Ho). unfold no_mode.
  rewrite lookup_insert_eq, !lookup_insert_ne by done. eauto.
Qed.

Lemma no_mode_insert_optimizer self o :
  no_mode self -> no_mode (<["optimizer" := PyOptimizer o]> self).
Proof.
  intros (Hm & Hmm & Ho). unfold no_mode.
  rewrite lookup_insert_eq, !lookup_insert_ne by done. eauto.
Qed.

Lemma constructed_no_mode self : constructed globals self -> no_mode self.
Proof.
  intros [km o p self0 Hinit | sc rdd km o nw p self0 Hinit].
  - apply DistributedModel_init_attrs in Hinit as ->.
    unfold no_mode. repeat map_step. eauto.
  - destruct (SparkModel_init_attrs _ _ _ _ _ _ _ Hinit) as (base & Hbase & ->).
    apply DistributedModel_init_attrs in Hbase as ->.
    unfold no_mode. repeat map_step. eauto.
Qed.

Lemma handle_no_mode r self :
  no_mode self -> no_mode (snd (handle globals r self)).
Proof.
  intros Hs. unfold handle. destruct r as [|body].
  - pose proof (route_parameters_pure globals self) as Hp.
    destruct (route_parameters globals self) as [[rv|e] s1]; simpl in *;
      by subst.
  - destruct (update_parameters_cases body self) as [Hsame | (opt' & new & Hnew)];
      destruct (update_parameters body self) as [[rv|e] s1]; simpl in *; subst;
      first [ exact Hs
            | apply no_mode_insert; [done..|]; by apply no_mode_insert_optimizer ].
Qed.

Lemma serve_no_mode rs self : no_mode self -> no_mode (snd (serve globals rs self)).
Proof.
  revert self. induction rs as [|r rs IH]; intros self Hs; simpl; [exact Hs|].
  pose proof (handle_no_mode r self Hs) as Hh.
  destruct (handle globals r self) as [resp self']. simpl in Hh.
  specialize (IH self' Hh).
  destruct (serve globals rs self'); exact IH.
Qed.

Lemma mapPartitions_collect_self worker parts s :
  c_self (snd (mapPartitions_collect globals worker parts s)) = c_self s.
Proof.
  unfold mapPartitions_collect. generalize (@nil (list unit)) as collected.
  revert s. induction parts as [|part parts IH]; intros s collected; simpl.
  - reflexivity.
  - unfold bind at 1.
    destruct (SparkWorker_train globals worker part _) as [[yielded|e] ws]; simpl.
    + rewrite IH. reflexivity.
    + reflexivity.
Qed.

Lemma stop_server_no_mode : keeps stop_server.
Proof.
  apply keeps_same. intros s. unfold stop_server, on_self, on_net, clog.
  py_simpl. destruct (c_self s !! "server") as [[]|]; reflexivity.
Qed.

Lemma start_server_no_mode : keeps start_server.
Proof.
  intros s r s' E Hs. unfold start_server, on_self, clog in E. py_simpl.
  rewrite lookup_insert_eq in E. simpl in E. inversion E; subst; simpl.
  by apply no_mode_insert.
Qed.

Lemma keeps_ret {A} (a : A) : keeps (ret a).
Proof. by apply keeps_same. Qed.

Lemma keeps_raise {A} e : keeps (raise e : py cstate A).
Proof. by apply keeps_same. Qed.

Lemma keeps_lift {A} (r : result A) : keeps (lift r).
Proof. by apply keeps_same. Qed.

Lemma keeps_clog e : keeps (clog e).
Proof. by apply keeps_same. Qed.

Lemma keeps_helper name : keeps (helper globals name).
Proof. apply keeps_same. intros s. unfold helper. by destruct (globals !! name). Qed.

Lemma keeps_on_net {A} (c : net -> result A * net) : keeps (on_net c).
Proof. apply keeps_same. intros s. unfold on_net. by destruct (c (c_net s)). Qed.

Lemma keeps_self_attr name : keeps (on_self (self_attr name)).
Proof. by apply keeps_on_self, keeps_attrs_same. Qed.

Lemma get_master_url_pure self : snd (get_master_url self) = self.
Proof.
  unfold get_master_url. py_simpl.
  destruct (self !! "master_address") as [a|]; simpl; [|reflexivity].
  destruct (as_str a); simpl; [|reflexivity].
  destruct (self !! "master_port"); reflexivity.
Qed.

Lemma get_config_pure self : snd (get_config self) = self.
Proof.
  unfold get_config. py_simpl.
  destruct (self !! "master_model") as [mm|]; simpl; [|reflexivity].
  destruct (as_model _ mm); simpl; [|reflexivity].
  destruct (self !! "optimizer") as [o|]; simpl; [|reflexivity].
  destruct (as_optimizer _ o); simpl; [|reflexivity].
  destruct (self !! "mode"); reflexivity.
Qed.

Lemma predict_pure data self : snd (DistributedModel_predict data self) = self.
Proof.
  unfold DistributedModel_predict. py_simpl.
  destruct (self !! "master_model") as [mm|]; simpl; [|reflexivity].
  destruct (as_model _ mm); reflexivity.
Qed.

Lemma predict_classes_pure data self :
  snd (DistributedModel_predict_classes data self) = self.
Proof.
  unfold DistributedModel_predict_classes. py_simpl.
  destruct (self !! "master_model") as [mm|]; simpl; [|reflexivity].
  destruct (as_model _ mm); reflexivity.
Qed.

Lemma keeps_mapPartitions_collect worker parts :
  keeps (mapPartitions_collect globals worker parts).
Proof. apply keeps_same. intros s. apply mapPartitions_collect_self. Qed.

Lemma keeps_set_attr name v :
  name <> "mode" -> name <> "master_model" -> name <> "optimizer" ->
  keeps (on_self (set_self_attr name v)).
Proof.
  intros Hn1 Hn2 Hn3. apply keeps_on_self. intros s r s' [= <- <-] Hs.
  by apply no_mode_insert.
Qed.

Lemma keeps_set_model m :
  keeps (on_self (set_self_attr "master_model" (PyModel m))).
Proof.
  apply keeps_on_self. intros s r s' [= <- <-] Hs. by apply no_mode_insert_model.
Qed.

Ltac keeps_step :=
  lazymatch goal with
  | |- keeps (bind _ _) => apply keeps_bind; [|intros ?]
  | |- keeps (on_self (self_attr _)) => apply keeps_self_attr
  | |- keeps (on_self get_master_url) =>
      apply keeps_on_self, keeps_attrs_same, get_master_url_pure
  | |- keeps (on_self (set_self_attr "master_model" (PyModel _))) =>
      apply keeps_set_model
  | |- keeps (on_self (set_self_attr _ _)) => apply keeps_set_attr; done
  | |- keeps (lift _) => apply keeps_lift
  | |- keeps (ret _) => apply keeps_ret
  | |- keeps (raise _) => apply keeps_raise
  | |- keeps (clog _) => apply keeps_clog
  | |- keeps (helper _ _) => apply keeps_helper
  | |- keeps (on_net _) => apply keeps_on_net
  | |- keeps (mapPartitions_collect _ _ _) => apply keeps_mapPartitions_collect
  | |- keeps stop_server => apply stop_server_no_mode
  | |- keeps start_server => apply start_server_no_mode
  | |- keeps (if ?b then _ else _) => destruct b
  end.

Lemma SparkModel__train_no_mode parameters : keeps (SparkModel__train globals parameters).
Proof. unfold SparkModel__train. cbv zeta. repeat keeps_step. Qed.

Lemma SparkModel_train_no_mode parameters : keeps (SparkModel_train globals parameters).
Proof.
  unfold SparkModel_train. repeat keeps_step. apply SparkModel__train_no_mode.
Qed.

Lemma call_no_mode m : keeps (call globals m).
Proof.
  destruct m; simpl; unfold void, DistributedModel_train; repeat keeps_step;
    try (apply keeps_on_self, keeps_attrs_same;
         first [ apply get_config_pure | apply predict_pure
               | apply predict_classes_pure | apply get_master_url_pure ]).
  - apply keeps_on_self. intros s r s' E Hs. unfold service in E. py_simpl.
    pose proof (serve_no_mode incoming (<["app" := PyOpaque "Flask"]> s)) as Hserve.
    destruct (serve globals incoming _) as [resps self']. inversion E; subst.
    apply Hserve. by apply no_mode_insert.
  - apply SparkModel_train_no_mode.
  - apply SparkModel__train_no_mode.
Qed.

Lemma reachable_no_mode s : reachable globals s -> no_mode (c_self s).
Proof.
  induction 1 as [self n Hc | m s r s' Hs IH Hcall].
  - simpl. by apply constructed_no_mode.
  - eapply call_no_mode; eauto.
Qed.

(** C10.  On a model made by either constructor, at any point of its life
    (whatever methods have been called on it, whether they returned or
    raised), [get_config] raises [AttributeError]: it reads [self.mode],
    which no constructor and no method sets. *)
Theorem get_config_raises_attribute_error s :
  reachable globals s ->
  get_config (c_self s) = (Raise (AttributeError "mode"), c_self s).
Proof.
  intros Hs. destruct (reachable_no_mode s Hs) as (Hmode & [m Hm] & [o Ho]).
  unfold get_config. py_simpl. rewrite Hm; simpl. rewrite Ho; simpl.
  rewrite Hmode. reflexivity.
Qed.
End Coordinator.

(** * Requests handled in threads *)

Section Threads.
Context `{Handles} `{!Keras} `{!Pickle} `{!Optimizers}.
Variable globals : attrs.
Variable requests : list request.
Variable self0 : attrs.

Lemma serve_app rs1 rs2 self :
  serve globals (rs1 ++ rs2) self =
    (fst (serve globals rs1 self) ++ fst (serve globals rs2 (snd (serve globals rs1 self))),
     snd (serve globals rs2 (snd (serve globals rs1 self)))).
Proof.
  revert self. induction rs1 as [|r rs1 IH]; intros self; simpl.
  - by destruct (serve globals rs2 self).
  - destruct (handle globals r self) as [resp self1]. rewrite IH.
    destruct (serve globals rs1 self1) as [resps1 self2]; simpl.
    reflexivity.
Qed.

Lemma finish_inside t self : is_Some (finish globals t self) -> inside t.
Proof. destruct t; simpl; intros [x E]; try done. Qed.

(** A view that finds no lock under [self.mutex] is answered a 500 and
    has touched nothing. *)
Lemma handle_without_lock r self :
  (forall v, getattr self "mutex" = Ok v -> v <> PyLock) ->
  handle globals r self = (HTTP500, self).
Proof.
  intros Hmutex. unfold handle.
  destruct r as [|body]; unfold route_parameters, update_parameters, bind, lift, ret.
  - destruct (getattr self "mutex") as [v|e] eqn:E; simpl; [|reflexivity].
    specialize (Hmutex v eq_refl). destruct v; try reflexivity. done.
  - destruct (loads body) as [delta|e]; [|reflexivity].
    destruct (getattr self "mutex") as [v|e] eqn:E; simpl; [|reflexivity].
    specialize (Hmutex v eq_refl). destruct v; try reflexivity. done.
Qed.

Lemma handle_bad_pickle body e self :
  loads body = Raise e ->
  handle globals (POST_update body) self = (HTTP500, self).
Proof.
  intros E. unfold handle, update_parameters, bind, lift. rewrite E. reflexivity.
Qed.

(** With the lock there, the view of a Fetch is the block under the lock. *)
Lemma finish_pickling self :
  getattr self "mutex" = Ok PyLock ->
  finish globals Pickling self = Some (handle globals GET_parameters self).
Proof.
  intros E. unfold finish, handle, route_parameters. rewrite E. simpl.
  destruct (pickle_master_weights globals self) as [[rv|e] self']; reflexivity.
Qed.

Lemma finish_updating body delta self :
  loads body = Ok delta ->
  getattr self "mutex" = Ok PyLock ->
  finish globals (Updating delta) self = Some (handle globals (POST_update body) self).
Proof.
  intros El E. unfold finish, handle, update_parameters, bind, lift, ret.
  rewrite El, E. simpl. unfold bind, set_self_attr, modify.
  destruct (updated_weights delta self) as [[new|e] self']; reflexivity.
Qed.

Lemma updated_weights_frame delta self name :
  name <> "optimizer" ->
  snd (updated_weights delta self) !! name = self !! name.
Proof.
  intros Hn. unfold updated_weights. py_simpl.
  destruct (self !! "master_model") as [mm|]; simpl; [|reflexivity].
  destruct (as_model _ mm) as [m|]; simpl; [|reflexivity].
  destruct (self !! "optimizer") as [o|]; simpl; [|reflexivity].
  destruct (as_optimizer _ o) as [opt|]; simpl; [|reflexivity].
  destruct (self !! "weights") as [w|]; simpl; [|reflexivity].
  destruct (as_weights w) as [current|]; simpl; [|reflexivity].
  destruct (get_updates opt current delta (constraints m)) as [[opt' new]|];
    simpl; [|reflexivity].
  by rewrite lookup_insert_ne.
Qed.

Lemma pickle_master_weights_pure self :
  snd (pickle_master_weights globals self) = self.
Proof.
  unfold pickle_master_weights. py_simpl.
  destruct (globals !! "picle") as [picle|]; simpl; [|reflexivity].
  destruct (attr_dumps picle); simpl; [|reflexivity].
  destruct (self !! "master_model") as [mm|]; simpl; [|reflexivity].
  destruct (as_model _ mm); reflexivity.
Qed.

(** *** The steps that keep the invariant *)

(** The lock is free exactly when no thread is inside. *)
Lemma linearised_free pool sh order i t :
  linearised globals requests self0 (pool, sh) order ->
  sh_lock sh = None -> pool !! i = Some t -> ~ inside t.
Proof.
  intros [_ _ _ _ _ Hth _] Hfree Hi Hin. pose proof (Hth i t Hi) as Hok.
  simpl in *. destruct t; simpl in *; try done; congruence.
Qed.

Lemma linearised_not_answered pool sh order i t r resp :
  linearised globals requests self0 (pool, sh) order ->
  pool !! i = Some t -> ~ is_answered t -> (i, r, resp) ∉ order.
Proof.
  intros [_ _ Hord _ _ _ _] Hi Hna Hin. destruct (Hord i r resp Hin) as [_ Ha].
  simpl in Ha. rewrite Hi in Ha. injection Ha as ->. by apply Hna.
Qed.

Lemma not_in_ids (order : list (nat * request * response)) i :
  (forall r resp, (i, r, resp) ∉ order) -> i ∉ order.*1.*1.
Proof.
  intros Hnot Hin. apply list_elem_of_fmap in Hin as ([i' r] & -> & Hin).
  apply list_elem_of_fmap in Hin as ([[i'' r'] resp] & [= <- <-] & Hin).
  by apply (Hnot r resp).
Qed.

(** A thread that moves without being answered leaves the answered
    threads where they are. *)
Lemma order_kept (pool : list thread) (order : list (nat * request * response)) i t t' :
  pool !! i = Some t -> ~ is_answered t ->
  (forall j r resp, (j, r, resp) ∈ order ->
      requests !! j = Some r /\ pool !! j = Some (Answered resp)) ->
  forall j r resp, (j, r, resp) ∈ order ->
    requests !! j = Some r /\ <[i := t']> pool !! j = Some (Answered resp).
Proof.
  intros Hi Hna Hord j r resp Hin. destruct (Hord j r resp Hin) as [Hr Hj].
  split; [exact Hr|]. rewrite list_lookup_insert_ne; [exact Hj|].
  intros <-. rewrite Hi in Hj. injection Hj as ->. by apply Hna.
Qed.

Lemma answered_kept (pool : list thread) (order : list (nat * request * response)) i t' :
  ~ is_answered t' ->
  (forall j resp, pool !! j = Some (Answered resp) -> exists r, (j, r, resp) ∈ order) ->
  forall j resp, <[i := t']> pool !! j = Some (Answered resp) ->
    exists r, (j, r, resp) ∈ order.
Proof.
  intros Hna Hans j resp Hj. destruct (decide (i = j)) as [<-|Hne].
  - apply list_lookup_insert_Some in Hj as [(_ & Ht & _)|[? _]]; [|done].
    subst t'. by destruct Hna.
  - rewrite list_lookup_insert_ne in Hj by done. by apply Hans.
Qed.

Lemma thread_ok_outside sh sh' i t :
  ~ inside t -> thread_ok requests sh i t -> thread_ok requests sh' i t.
Proof. destruct t; simpl; tauto. Qed.

(** A view answered without the lock: it goes first in the order. *)
Lemma linearised_refused pool sh order i t r :
  linearised globals requests self0 (pool, sh) order ->
  pool !! i = Some t -> ~ is_answered t -> ~ inside t ->
  requests !! i = Some r ->
  handle globals r self0 = (HTTP500, self0) ->
  linearised globals requests self0 (<[i := Answered HTTP500]> pool, sh)
    ((i, r, HTTP500) :: order).
Proof.
  intros L Hi Hna Hout Hr Hh.
  pose proof (fun r resp => linearised_not_answered _ _ _ _ _ r resp L Hi Hna) as Hfresh.
  destruct L as [Hlen Hnd Hord Hans Hmu Hth Hst]. simpl in *.
  pose proof (lookup_lt_Some _ _ _ Hi) as Hlt.
  split; cbn [fst snd sh_self sh_lock].
  - by rewrite length_insert.
  - rewrite !fmap_cons. apply NoDup_cons. split; [by apply not_in_ids | exact Hnd].
  - intros j r' resp Hin. apply elem_of_cons in Hin as [[= -> -> ->]|Hin].
    + split; [exact Hr|]. by rewrite list_lookup_insert_eq.
    + destruct (Hord j r' resp Hin) as [Hr' Hj]. split; [exact Hr'|].
      rewrite list_lookup_insert_ne; [exact Hj|].
      intros <-. rewrite Hi in Hj. injection Hj as ->. by apply Hna.
  - intros j resp Hj. destruct (decide (i = j)) as [<-|Hne].
    + rewrite list_lookup_insert_eq in Hj by done. injection Hj as <-.
      exists r. left.
    + rewrite list_lookup_insert_ne in Hj by done.
      destruct (Hans j resp Hj) as [r' Hin]. exists r'. by right.
  - exact Hmu.
  - intros j tj Hj. destruct (decide (i = j)) as [<-|Hne].
    + rewrite list_lookup_insert_eq in Hj by done. by injection Hj as <-.
    + rewrite list_lookup_insert_ne in Hj by done. by apply Hth.
  - rewrite !fmap_cons. cbn [serve fst snd]. rewrite Hh.
    destruct (sh_lock sh) as [j|].
    + destruct Hst as (tj & rj & base & Hj & Hrj & Hserve & Hfin).
      exists tj, rj, base. rewrite Hserve. repeat split; try done.
      rewrite list_lookup_insert_ne; [exact Hj|].
      intros <-. rewrite Hi in Hj. injection Hj as <-.
      apply Hout. eapply finish_inside. by eexists.
    + by rewrite Hst.
Qed.

(** The body of a Submit has been unpickled. *)
Lemma linearised_unpickled pool sh order i body delta :
  linearised globals requests self0 (pool, sh) order ->
  pool !! i = Some (Arrived (POST_update body)) ->
  loads body = Ok delta ->
  linearised globals requests self0 (<[i := Unpickled delta]> pool, sh) order.
Proof.
  intros [Hlen Hnd Hord Hans Hmu Hth Hst] Hi Hl. simpl in *.
  pose proof (lookup_lt_Some _ _ _ Hi) as Hlt.
  split; cbn [fst snd sh_self sh_lock].
  - by rewrite length_insert.
  - exact Hnd.
  - eapply order_kept; eauto.
  - eapply answered_kept; eauto.
  - exact Hmu.
  - intros j tj Hj. destruct (decide (i = j)) as [<-|Hne].
    + rewrite list_lookup_insert_eq in Hj by done. injection Hj as <-.
      exists body. split; [|exact Hl]. exact (Hth i _ Hi).
    + rewrite list_lookup_insert_ne in Hj by done. by apply Hth.
  - destruct (sh_lock sh) as [j|]; [|exact Hst].
    destruct Hst as (tj & rj & base & Hj & Hrj & Hserve & Hfin).
    exists tj, rj, base. repeat split; try done.
    rewrite list_lookup_insert_ne; [exact Hj|].
    intros <-. rewrite Hi in Hj. by injection Hj as <-.
Qed.

(** A thread takes the free lock: from here on it is the one being
    served. *)
Lemma linearised_acquire pool sh order i t t' r :
  linearised globals requests self0 (pool, sh) order ->
  sh_lock sh = None ->
  pool !! i = Some t -> ~ is_answered t ->
  requests !! i = Some r ->
  inside t' ->
  finish globals t' (sh_self sh) = Some (handle globals r (sh_self sh)) ->
  linearised globals requests self0
    (<[i := t']> pool, {| sh_self := sh_self sh; sh_lock := Some i |}) order.
Proof.
  intros L Hfree Hi Hna Hr Hin Hfin.
  pose proof (fun j tj => linearised_free _ _ _ j tj L Hfree) as Hout.
  destruct L as [Hlen Hnd Hord Hans Hmu Hth Hst]. simpl in *.
  pose proof (lookup_lt_Some _ _ _ Hi) as Hlt.
  assert (Hna' : ~ is_answered t') by (destruct t'; simpl in *; tauto).
  split; cbn [fst snd sh_self sh_lock].
  - by rewrite length_insert.
  - exact Hnd.
  - eapply order_kept; eauto.
  - eapply answered_kept; eauto.
  - exact Hmu.
  - intros j tj Hj. destruct (decide (i = j)) as [<-|Hne].
    + rewrite list_lookup_insert_eq in Hj by done. injection Hj as <-.
      destruct t'; simpl in *; tauto.
    + rewrite list_lookup_insert_ne in Hj by done.
      eapply thread_ok_outside; [by eapply Hout | by apply Hth].
  - rewrite Hfree in Hst. exists t', r, (sh_self sh).
    rewrite list_lookup_insert_eq by done. auto.
Qed.

(** The thread that holds the lock takes a step under it. *)
Lemma linearised_inside pool sh order i t t' self' :
  linearised globals requests self0 (pool, sh) order ->
  pool !! i = Some t -> inside t -> inside t' ->
  finish globals t' self' = finish globals t (sh_self sh) ->
  self' !! "mutex" = sh_self sh !! "mutex" ->
  linearised globals requests self0
    (<[i := t']> pool, {| sh_self := self'; sh_lock := sh_lock sh |}) order.
Proof.
  intros [Hlen Hnd Hord Hans Hmu Hth Hst] Hi Hin Hin' Hfin Hmutex. simpl in *.
  pose proof (lookup_lt_Some _ _ _ Hi) as Hlt.
  assert (Hlock : sh_lock sh = Some i).
  { specialize (Hth i t Hi). destruct t; simpl in *; tauto. }
  assert (Hna : ~ is_answered t) by (destruct t; simpl in *; tauto).
  assert (Hna' : ~ is_answered t') by (destruct t'; simpl in *; tauto).
  split; cbn [fst snd sh_self sh_lock].
  - by rewrite length_insert.
  - exact Hnd.
  - eapply order_kept; eauto.
  - eapply answered_kept; eauto.
  - by rewrite Hmutex.
  - intros j tj Hj. destruct (decide (i = j)) as [<-|Hne].
    + rewrite list_lookup_insert_eq in Hj by done. injection Hj as <-.
      destruct t'; simpl in *; tauto.
    + rewrite list_lookup_insert_ne in Hj by done.
      specialize (Hth j tj Hj). destruct tj; simpl in *; tauto.
  - rewrite Hlock in *. destruct Hst as (t0 & r & base & Hi0 & Hr & Hserve & Hfin0).
    rewrite Hi in Hi0. injection Hi0 as <-.
    exists t', r, base. rewrite list_lookup_insert_eq by done.
    rewrite Hfin. auto.
Qed.

(** The thread that holds the lock leaves the with block: its request is
    the last one served so far. *)
Lemma linearised_release pool sh order i rv :
  linearised globals requests self0 (pool, sh) order ->
  pool !! i = Some (Leaving rv) ->
  exists r,
    linearised globals requests self0
      (<[i := Answered (answer rv)]> pool, {| sh_self := sh_self sh; sh_lock := None |})
      (order ++ [(i, r, answer rv)]).
Proof.
  intros L Hi.
  pose proof (fun r resp => linearised_not_answered _ _ _ _ _ r resp L Hi (fun x => x))
    as Hfresh.
  destruct L as [Hlen Hnd Hord Hans Hmu Hth Hst]. simpl in *.
  pose proof (lookup_lt_Some _ _ _ Hi) as Hlt.
  assert (Hlock : sh_lock sh = Some i) by exact (Hth i _ Hi).
  rewrite Hlock in Hst. destruct Hst as (t0 & r & base & Hi0 & Hr & Hserve & Hfin).
  rewrite Hi in Hi0. injection Hi0 as <-. simpl in Hfin. injection Hfin as Hfin.
  exists r. split; cbn [fst snd sh_self sh_lock].
  - by rewrite length_insert.
  - rewrite !fmap_app. apply NoDup_app. split; [exact Hnd|].
    split; [|apply NoDup_singleton].
    intros j Hj ->%list_elem_of_singleton. revert Hj. by apply not_in_ids.
  - intros j r' resp Hin. apply elem_of_app in Hin as [Hin|Hin].
    + destruct (Hord j r' resp Hin) as [Hr' Hj]. split; [exact Hr'|].
      rewrite list_lookup_insert_ne; [exact Hj|].
      intros <-. rewrite Hi in Hj. by injection Hj.
    + apply list_elem_of_singleton in Hin as [= -> -> ->].
      split; [exact Hr|]. by rewrite list_lookup_insert_eq.
  - intros j resp Hj. destruct (decide (i = j)) as [<-|Hne].
    + rewrite list_lookup_insert_eq in Hj by done. injection Hj as <-.
      exists r. apply elem_of_app. right. left.
    + rewrite list_lookup_insert_ne in Hj by done.
      destruct (Hans j resp Hj) as [r' Hin]. exists r'.
      apply elem_of_app. by left.
  - exact Hmu.
  - intros j tj Hj. destruct (decide (i = j)) as [<-|Hne].
    + rewrite list_lookup_insert_eq in Hj by done. by injection Hj as <-.
    + rewrite list_lookup_insert_ne in Hj by done.
      specialize (Hth j tj Hj).
      destruct tj; simpl in Hth |- *; try done; congruence.
  - rewrite !fmap_app, serve_app, Hserve. cbn [fst snd fmap list_fmap serve].
    rewrite <- Hfin. reflexivity.
Qed.

(** The three ways [with self.mutex:] can go. *)
Lemma enter_cases i t' sh :
  (getattr (sh_self sh) "mutex" = Ok PyLock /\ sh_lock sh = None /\
   enter i t' sh = Some (t', {| sh_self := sh_self sh; sh_lock := Some i |})) \/
  (enter i t' sh = None) \/
  ((forall v, getattr (sh_self sh) "mutex" = Ok v -> v <> PyLock) /\
   enter i t' sh = Some (Answered HTTP500, sh)).
Proof.
  unfold enter. destruct (getattr (sh_self sh) "mutex") as [v|e].
  - destruct v; try (right; right; split; [intros ? [= <-]; discriminate | reflexivity]).
    destruct (sh_lock sh); [right; left; reflexivity | left; auto].
  - right; right. split; [intros ? [=] | reflexivity].
Qed.

Lemma getattr_mutex self :
  self !! "mutex" = self0 !! "mutex" ->
  getattr self "mutex" = getattr self0 "mutex".
Proof. unfold getattr. by intros ->. Qed.

(** Thread [i] reaches [with self.mutex:] with its request [r]; [t'] is
    where it is once inside. *)
Lemma enter_linearised pool sh order i t t' r :
  linearised globals requests self0 (pool, sh) order ->
  pool !! i = Some t -> ~ is_answered t -> ~ inside t ->
  requests !! i = Some r ->
  inside t' ->
  (getattr (sh_self sh) "mutex" = Ok PyLock ->
   finish globals t' (sh_self sh) = Some (handle globals r (sh_self sh))) ->
  exists order',
    linearised globals requests self0
      match enter i t' sh with
      | Some (t'', sh') => (<[i := t'']> pool, sh')
      | None => (pool, sh)
      end order'.
Proof.
  intros L Hi Hna Hout Hr Hin Hfin.
  destruct (enter_cases i t' sh) as [(Hm & Hfree & ->)|[->|[Hm ->]]].
  - exists order. eapply linearised_acquire; eauto.
  - by exists order.
  - exists ((i, r, HTTP500) :: order). eapply linearised_refused; eauto.
    apply handle_without_lock. intros v Hv. apply Hm.
    rewrite <- Hv. apply getattr_mutex. by destruct L.
Qed.

(** Every turn keeps the invariant, for some order. *)
Lemma turn_linearised i c order :
  linearised globals requests self0 c order ->
  exists order', linearised globals requests self0 (turn globals i c) order'.
Proof.
  destruct c as [pool sh]. intros L. unfold turn. cbn [fst snd].
  destruct (pool !! i) as [t|] eqn:Hi; [|by exists order].
  pose proof (lin_thread _ _ _ _ _ L i t Hi) as Hok. cbn [fst snd] in Hok.
  destruct t as [[|body]|delta|delta|new| |rv|resp]; cbn [step].
  - apply (enter_linearised pool sh order i _ Pickling GET_parameters L Hi);
      [by intros [] | by intros [] | exact Hok | exact I | apply finish_pickling].
  - destruct (loads body) as [delta|e] eqn:El.
    + exists order. by eapply linearised_unpickled.
    + exists ((i, POST_update body, HTTP500) :: order).
      apply (linearised_refused pool sh order i _ _ L Hi);
        [by intros [] | by intros [] | exact Hok | by eapply handle_bad_pickle].
  - destruct Hok as (body & Hr & El).
    apply (enter_linearised pool sh order i _ (Updating delta) (POST_update body) L Hi);
      [by intros [] | by intros [] | exact Hr | exact I | by apply finish_updating].
  - exists order.
    destruct (updated_weights delta (sh_self sh)) as [[new|e] self'] eqn:E;
      (pose proof (updated_weights_frame delta (sh_self sh) "mutex") as Hframe;
       rewrite E in Hframe; cbn [snd] in Hframe;
       apply (linearised_inside pool sh order i _ _ self' L Hi);
       [ exact I | exact I | cbn [finish]; rewrite E; reflexivity
       | by apply Hframe ]).
  - exists order.
    apply (linearised_inside pool sh order i _ _ _ L Hi);
      [ exact I | exact I | reflexivity | by rewrite lookup_insert_ne ].
  - exists order.
    pose proof (pickle_master_weights_pure (sh_self sh)) as Hp.
    destruct (pickle_master_weights globals (sh_self sh)) as [rv self'] eqn:E.
    cbn [snd] in Hp. subst self'.
    apply (linearised_inside pool sh order i _ _ _ L Hi);
      [ exact I | exact I | cbn [finish]; rewrite E; reflexivity | reflexivity ].
  - destruct (linearised_release pool sh order i rv L Hi) as [r Hrel].
    by exists (order ++ [(i, r, answer rv)]).
  - by exists order.
Qed.

Lemma run_linearised schedule c order :
  linearised globals requests self0 c order ->
  exists order', linearised globals requests self0 (run globals schedule c) order'.
Proof.
  revert c order. induction schedule as [|i schedule IH]; intros c order L; simpl.
  - by exists order.
  - destruct (turn_linearised i c order L) as [order1 L1]. by eapply IH.
Qed.

Lemma arrived_linearised :
  linearised globals requests self0 (arrived requests self0) [].
Proof.
  split; simpl.
  - by rewrite length_fmap.
  - apply NoDup_nil_2.
  - intros i r resp Hin. by apply elem_of_nil in Hin.
  - intros i resp Hi. rewrite list_lookup_fmap in Hi.
    destruct (requests !! i); discriminate.
  - reflexivity.
  - intros i t Hi. rewrite list_lookup_fmap in Hi.
    destruct (requests !! i) eqn:E; simpl in Hi; [|discriminate].
    by injection Hi as <-.
  - reflexivity.
Qed.

(** C8.  The requests arrive together and are handled in threads that
    take turns in any order; both views do all their work on the object
    under [self.mutex].  Once every request is answered, there is a serial
    order of the requests which, served one after the other from the
    initial object, gives each request the answer its thread gave and
    leaves the object as the threads left it.  For Submits alone this is
    the serial order of the claim; a Fetch among them is answered as it is
    in that serial order, so it never sees a half-made update. *)
Theorem concurrent_requests_serialise schedule pool sh :
  run globals schedule (arrived requests self0) = (pool, sh) ->
  Forall is_answered pool ->
  exists order,
    serial_order requests pool order /\
    serve globals (order.*1.*2) self0 = (order.*2, sh_self sh) /\
    sh_lock sh = None.
Proof.
  intros Hrun Hall.
  destruct (run_linearised schedule _ _ arrived_linearised) as [order L].
  rewrite Hrun in L. destruct L as [Hlen Hnd Hord Hans Hmu Hth Hst].
  cbn [fst snd] in *.
  assert (Hfree : sh_lock sh = None).
  { destruct (sh_lock sh) as [i|]; [|reflexivity].
    destruct Hst as (t & r & base & Hi & _ & _ & Hfin).
    assert (Hin : inside t) by (eapply finish_inside; by eexists).
    apply list_elem_of_lookup_2 in Hi.
    rewrite Forall_forall in Hall. specialize (Hall t Hi).
    destruct t; simpl in *; tauto. }
  rewrite Hfree in Hst. exists order. split; [|auto]. split.
  - apply NoDup_Permutation; [exact Hnd | apply NoDup_seq|].
    intros i. rewrite elem_of_seq. split.
    + intros Hin. apply list_elem_of_fmap in Hin as ([i' r] & -> & Hin).
      apply list_elem_of_fmap in Hin as ([[i'' r'] resp] & [= <- <-] & Hin).
      destruct (Hord _ _ _ Hin) as [Hr _]. apply lookup_lt_Some in Hr. simpl. lia.
    + intros [_ Hlt]. simpl in Hlt. rewrite <- Hlen in Hlt.
      destruct (lookup_lt_is_Some_2 pool i Hlt) as [t Hi].
      pose proof Hi as Hi'. apply list_elem_of_lookup_2 in Hi'.
      rewrite Forall_forall in Hall. specialize (Hall t Hi').
      destruct t as [| | | | | |resp]; simpl in Hall; try done.
      destruct (Hans i resp Hi) as [r Hin].
      apply list_elem_of_fmap. exists (i, r). split; [reflexivity|].
      apply list_elem_of_fmap. exists (i, r, resp). split; [reflexivity|exact Hin].
  - exact Hord.
Qed.
End Threads.

(** * The claims on the concrete setting *)

Section WorkerExamples.
Import Concrete Scenario.

Lemma empty_partition_is_a_no_op_witness :
  is_Some (star_imports !! "tee") /\
  SparkWorker_train star_imports (worker "epoch" 1 2) [] start = (Ok [], start).
Proof.
  assert (Htee : is_Some (star_imports !! "tee")) by (eexists; vm_compute; reflexivity).
  split; [exact Htee|].
  apply (empty_partition_is_a_no_op star_imports (worker "epoch" 1 2) start Htee).
Defined.

(** The worker made for the frequency ['epoch'] and a configuration of
    one epoch and batches of one record, on a partition of two records. *)
Lemma per_batch_worker_raises_before_fetching_witness :
  np_size (fst <$> records 2) <> 0%nat /\
  is_Some (star_imports !! "tee") /\
  star_imports !! "json_model" = None /\
  SparkWorker_train star_imports (built_worker (config 1 1) "epoch") (records 2) start
    = (Raise (NameError "json_model"), start).
Proof.
  assert (Hsize : np_size (fst <$> records 2) <> 0%nat) by (vm_compute; discriminate).
  assert (Htee : is_Some (star_imports !! "tee")) by (eexists; vm_compute; reflexivity).
  split; [exact Hsize|]. split; [exact Htee|]. split; [reflexivity|].
  exact (proj2 (per_batch_worker_raises_before_fetching star_imports (PyStr "{}")
                  (PyOpaque "sgd") (PyOpaque "mse") (config 1 1) (PyStr "10.0.0.1:5000")
                  (records 2) start Hsize) Htee eq_refl).
Defined.


End WorkerExamples.

Section CoordinatorExamples.
Import Concrete.

(** A Spark model made by the constructor on two partitions. *)
Lemma coordinator_train_raises_witness :
  SparkModel_init star_imports (PyOpaque "sc") [records 3; records 1]
    initial_parameters tt 2 5000 ∅
  = (Ok tt, snd (SparkModel_init star_imports (PyOpaque "sc") [records 3; records 1]
                   initial_parameters tt 2 5000 ∅)) /\
  fst (SparkModel_train star_imports (config 1 1)
         {| c_self := snd (SparkModel_init star_imports (PyOpaque "sc")
                             [records 3; records 1] initial_parameters tt 2 5000 ∅);
            c_net := initial_parameters; c_log := [] |})
  = Raise (AttributeError "loss").
Proof.
  assert (Hinit : SparkModel_init star_imports (PyOpaque "sc") [records 3; records 1]
                    initial_parameters tt 2 5000 ∅
                  = (Ok tt, snd (SparkModel_init star_imports (PyOpaque "sc")
                                   [records 3; records 1] initial_parameters tt 2 5000 ∅)))
    by (vm_compute; reflexivity).
  split; [exact Hinit|].
  rewrite (coordinator_train_raises star_imports _ _ _ _ _ _ _ (config 1 1)
             initial_parameters Hinit).
  reflexivity.
Defined.

Lemma get_config_raises_attribute_error_witness :
  exists s,
    reachable star_imports s /\
    c_log s = [ServerStarted; Repartitioned 2] /\
    get_config (c_self s) = (Raise (AttributeError "mode"), c_self s).
Proof.
  exists (snd (SparkModel_train star_imports (config 1 1)
                 {| c_self := snd (SparkModel_init star_imports (PyOpaque "sc")
                                     [records 3; records 1] initial_parameters tt 2 5000 ∅);
                    c_net := initial_parameters; c_log := [] |})).
  assert (Hreach : reachable star_imports
            (snd (SparkModel_train star_imports (config 1 1)
                 {| c_self := snd (SparkModel_init star_imports (PyOpaque "sc")
                                     [records 3; records 1] initial_parameters tt 2 5000 ∅);
                    c_net := initial_parameters; c_log := [] |}))).
  { eapply (reachable_call star_imports (M_spark_train (config 1 1))).
    - apply reachable_new.
      eapply (constructed_spark star_imports (PyOpaque "sc") [records 3; records 1]
                initial_parameters tt 2 5000).
      vm_compute. reflexivity.
    - simpl. apply surjective_pairing. }
  split; [exact Hreach|]. split; [vm_compute; reflexivity|].
  apply (get_config_raises_attribute_error star_imports _ Hreach).
Defined.
End CoordinatorExamples.

Section ThreadExamples.
Import Concrete.

Lemma concurrent_requests_serialise_witness :
  Forall is_answered (fst (run (patched 1) interleaving (arrived three_requests server0))) /\
  exists order,
    serial_order three_requests
      (fst (run (patched 1) interleaving (arrived three_requests server0))) order /\
    serve (patched 1) (order.*1.*2) server0
      = (order.*2, sh_self (snd (run (patched 1) interleaving
                                   (arrived three_requests server0)))) /\
    sh_lock (snd (run (patched 1) interleaving (arrived three_requests server0))) = None.
Proof.
  assert (Hall : Forall is_answered
                   (fst (run (patched 1) interleaving (arrived three_requests server0)))).
  { vm_compute. repeat constructor. }
  split; [exact Hall|].
  apply (concurrent_requests_serialise (patched 1) three_requests server0 interleaving
           _ _ (surjective_pairing _) Hall).
Defined.
End ThreadExamples.

(** * Further properties of the parameter server *)

Section ServerFurther.
Context `{Handles} `{!Keras} `{!Pickle} `{!Optimizers} `{!Networking}.
Variable globals : attrs.

(** One request on a serving object. *)
Lemma handle_serving r self m store :
  serving self m store ->
  snd (handle globals r self) =
    <["weights" := PyWeights (snd (store_after (constraints m) store r))]>
      (<["optimizer" := PyOptimizer (fst (store_after (constraints m) store r))]> self).
Proof.
  intros (Hmu & Hm & Ho & Hw).
  assert (Hid : self = <["weights" := PyWeights (snd store)]>
                         (<["optimizer" := PyOptimizer (fst store)]> self)).
  { rewrite (insert_id self "optimizer") by exact Ho.
    by rewrite (insert_id self "weights"). }
  unfold handle. destruct r as [|body].
  - pose proof (route_parameters_pure globals self) as Hp.
    destruct (route_parameters globals self) as [[rv|e] self']; simpl in *;
      subst; exact Hid.
  - simpl. unfold update_parameters. py_simpl.
    destruct (loads body) as [delta|]; simpl; [|exact Hid].
    rewrite Hmu; simpl. rewrite Hm; simpl. rewrite Ho; simpl. rewrite Hw; simpl.
    destruct (get_updates (fst store) (snd store) delta (constraints m))
      as [[opt' new]|]; simpl; [reflexivity | exact Hid].
Qed.

Lemma serving_insert self m store store' :
  serving self m store ->
  serving (<["weights" := PyWeights (snd store')]>
             (<["optimizer" := PyOptimizer (fst store')]> self)) m store'.
Proof.
  intros (Hmu & Hm & Ho & Hw). unfold serving.
  repeat split; repeat map_step; done.
Qed.

Lemma insert_store_twice (self : attrs) (s1 s2 : koptimizer * weights) :
  <["weights" := PyWeights (snd s2)]>
    (<["optimizer" := PyOptimizer (fst s2)]>
       (<["weights" := PyWeights (snd s1)]>
          (<["optimizer" := PyOptimizer (fst s1)]> self)))
  = <["weights" := PyWeights (snd s2)]> (<["optimizer" := PyOptimizer (fst s2)]> self).
Proof.
  apply map_eq. intros name.
  destruct (decide (name = "weights")) as [->|Hw].
  { by repeat map_step. }
  destruct (decide (name = "optimizer")) as [->|Ho].
  { by repeat map_step. }
  by repeat (rewrite lookup_insert_ne by congruence).
Qed.

(** X1.  What a sequence of requests makes of the server object: the
    object it started as, with [optimizer] and [weights] rebound to the
    update rule folded over the requests, in the order they were served.
    A Fetch, a body that does not unpickle and a delta the rule refuses
    each leave the store where it was. *)
Theorem store_after_requests rs self m store :
  serving self m store ->
  snd (serve globals rs self) =
    <["weights" := PyWeights (snd (foldl (store_after (constraints m)) store rs))]>
      (<["optimizer" :=
           PyOptimizer (fst (foldl (store_after (constraints m)) store rs))]> self).
Proof.
  revert self store. induction rs as [|r rs IH]; intros self store Hs.
  - simpl. destruct Hs as (Hmu & Hm & Ho & Hw).
    rewrite (insert_id self "optimizer") by exact Ho.
    by rewrite (insert_id self "weights").
  - simpl. pose proof (handle_serving r self m store Hs) as Hh.
    destruct (handle globals r self) as [resp self1]. simpl in Hh. subst self1.
    specialize (IH _ _ (serving_insert self m store
                          (store_after (constraints m) store r) Hs)).
    destruct (serve globals rs _) as [resps self2]. simpl in *.
    rewrite IH. apply insert_store_twice.
Qed.

Lemma serve_answers rs self :
  fst (serve globals rs self) = (fun r => fst (handle globals r self)) <$> rs.
Proof.
  assert (Hsame : forall self1 self2 r,
             self1 !! "mutex" = self2 !! "mutex" ->
             self1 !! "master_model" = self2 !! "master_model" ->
             fst (handle globals r self1) = fst (handle globals r self2)).
  { intros self1 self2 [|body] Hmu Hm.
    - pose proof (route_parameters_reads globals self1 self2 Hmu Hm) as Hr.
      unfold handle.
      destruct (route_parameters globals self1) as [r1 s1].
      destruct (route_parameters globals self2) as [r2 s2].
      simpl in Hr. subst r2. by destruct r1.
    - by rewrite !handle_update_500. }
  assert (Hgen : forall self1,
             self1 !! "mutex" = self !! "mutex" ->
             self1 !! "master_model" = self !! "master_model" ->
             fst (serve globals rs self1) = (fun r => fst (handle globals r self)) <$> rs).
  { induction rs as [|r rs IH]; intros self1 Hmu Hm; simpl; [reflexivity|].
    pose proof (Hsame self1 self r Hmu Hm) as Hr.
    pose proof (handle_frame globals r self1 "mutex") as Hf1.
    pose proof (handle_frame globals r self1 "master_model") as Hf2.
    destruct (handle globals r self1) as [resp self2]. simpl in *.
    specialize (IH self2).
    destruct (serve globals rs self2) as [resps self3]. simpl in *.
    rewrite Hr, IH; [reflexivity | |].
    - rewrite Hf1 by done. exact Hmu.
    - rewrite Hf2 by done. exact Hm. }
  by apply Hgen.
Qed.

(** X2.  The answer to a request does not depend on the requests served
    before it: every request of a sequence is answered as it would have
    been had it been served first.  A Fetch reads only [mutex] and
    [master_model], which no view writes. *)
Theorem answers_ignore_history rs self :
  fst (serve globals rs self) = (fun r => fst (handle globals r self)) <$> rs.
Proof. apply serve_answers. Qed.

(** X4.  Every Submit is answered with a 500, the ones that were applied
    like the ones that were refused: the view returns [None], which Flask
    does not take for a response. *)
Theorem every_submit_is_answered_500 rs self k body :
  rs !! k = Some (POST_update body) ->
  fst (serve globals rs self) !! k = Some HTTP500.
Proof.
  intros Hk. rewrite serve_answers, list_lookup_fmap, Hk. simpl.
  by rewrite handle_update_500.
Qed.

(** X3.  Once [picle] is bound to the pickle module, the server the
    constructor made answers every Fetch, whatever was submitted before,
    with the pickle of the parameters the model had when the server was
    built. *)
Theorem fetch_serves_initial_parameters keras_model optimizer master_port self rs :
  globals !! "picle" = Some PyPickle ->
  DistributedModel_init globals keras_model optimizer master_port ∅ = (Ok tt, self) ->
  fst (handle globals GET_parameters (snd (serve globals rs self)))
  = HTTP200 (dumps (get_weights keras_model)).
Proof.
  intros Hpicle Hinit.
  assert (Hmu : snd (serve globals rs self) !! "mutex" = Some PyLock).
  { rewrite serve_frame by done. by eapply DistributedModel_init_mutex. }
  assert (Hm : snd (serve globals rs self) !! "master_model" = Some (PyModel keras_model)).
  { rewrite serve_frame by done. revert Hinit.
    unfold DistributedModel_init. py_simpl. rewrite lookup_insert_eq; simpl.
    destruct (globals !! "determine_host_address"); simpl; [|congruence].
    intros [= <-]. by rewrite !lookup_insert_ne, lookup_insert_eq by done. }
  unfold handle, route_parameters. py_simpl.
  rewrite Hmu; simpl. rewrite Hpicle; simpl. rewrite Hm; simpl. reflexivity.
Qed.
End ServerFurther.

(** * Further properties of the worker *)

Section WorkerFurther.
Context `{Handles} `{!Keras} `{!Networking}.
Variable globals : attrs.

(** X5.  A worker made by the constructor cannot train: the constructor
    keeps its [frequency] argument under [train_config] and sets no
    [frequency], so on every partition with features, whatever the
    arguments and whatever the module namespace, [train] raises before
    any exchange with the parameter server. *)
Theorem constructed_worker_cannot_train json_model optimizer loss train_config
    frequency master_url data s :
  np_size (fst <$> data) <> 0%nat ->
  exists e,
    SparkWorker_train globals
      (snd (SparkWorker_init json_model optimizer loss train_config frequency
              master_url ∅)) data s
    = (Raise e, s).
Proof. apply SparkWorker_init_train_raises. Qed.

Lemma np_size_featureless (rows : list (list Q)) :
  Forall (fun row => row = []) rows -> np_size rows = 0%nat.
Proof.
  intros Hrows. destruct rows as [|row rows]; [reflexivity|].
  pose proof Hrows as Hall. apply Forall_cons in Hrows as [-> _].
  unfold np_size.
  replace (forallb (fun r' : list Q => (length r' =? length (@nil Q))%nat) ([] :: rows))
    with true; [simpl; lia|].
  symmetry. apply forallb_forall. intros row Hin.
  rewrite Forall_forall in Hall. rewrite (Hall row); [reflexivity|].
  by apply list_elem_of_In.
Qed.

(** X6.  The test that ends [train] early is on the size of the feature
    array, not on the number of records: a partition whose records all
    have an empty feature vector is skipped like an empty partition, with
    nothing yielded and no exchange. *)
Theorem featureless_partition_is_skipped self data s :
  is_Some (globals !! "tee") ->
  Forall (fun record => record.1 = []) data ->
  SparkWorker_train globals self data s = (Ok [], s).
Proof.
  intros [? Htee] Hdata. unfold SparkWorker_train. py_simpl. rewrite Htee.
  rewrite np_size_featureless; [reflexivity|].
  apply Forall_fmap. exact Hdata.
Qed.



(** X10.  When the Fetch comes back empty, the local model is not
    loaded, and (the model having parameters) what is submitted is the
    whole of the parameters after the training step, not a difference;
    [subtract_params] is not even looked up. *)
Theorem empty_fetch_full_replacement self x_train y_train index_array
    batch_start batch_end model url s n1 X y n2 :
  is_Some (globals !! "get_master_weights") ->
  is_Some (globals !! "send_master_model_deltas") ->
  self !! "master_url" = Some (PyStr url) ->
  get_master_weights url (w_net s) = (Ok [], n1) ->
  slice_X x_train (py_slice index_array batch_start batch_end) = Ok X ->
  slice_X y_train (py_slice index_array batch_start batch_end) = Ok y ->
  get_weights (train_on_batch X y model) <> [] ->
  send_master_model_deltas (get_weights (train_on_batch X y model)) url n1 = (Ok tt, n2) ->
  train_batch globals self x_train y_train index_array (batch_start, batch_end) model s
  = (Ok (train_on_batch X y model),
     {| w_net := n2;
        w_log := w_log s ++ [Fetch (Ok []); Train X y;
                             Submit (get_weights (train_on_batch X y model))] |}).
Proof.
  intros [? Hg] [? Hd] Hurl Hfetch HX Hy Hafter Hsend.
  unfold train_batch, call_get_master_weights, call_send_master_model_deltas, log.
  py_simpl. rewrite Hg, Hurl; simpl. rewrite Hfetch; simpl.
  rewrite HX, Hy; simpl.
  destruct (get_weights (train_on_batch X y model)) as [|a after] eqn:E; [done|].
  simpl. rewrite Hd; simpl. rewrite Hsend; simpl.
  rewrite <- !app_assoc. reflexivity.
Qed.

(** A slice of [np.arange(n)] between two bounds that are not negative. *)
Lemma py_slice_arange (n a b : Z) :
  0 <= n -> 0 <= a -> 0 <= b ->
  py_slice (seq 0 (Z.to_nat n)) a b
  = seq (Z.to_nat (Z.min a n)) (Z.to_nat (Z.min b n - Z.min a n)).
Proof.
  intros Hn Ha Hb. unfold py_slice, clamp. rewrite length_seq, Z2Nat.id by lia.
  destruct (Z.ltb_spec b 0); [lia|]. destruct (Z.ltb_spec a 0); [lia|].
  rewrite drop_seq, take_seq. simpl. f_equal. lia.
Qed.

(** X11.  Whatever number [nb_batch] is bound to, with a positive batch
    size the bounds of line 163 cut [index_array], as line 174 slices it,
    into consecutive pieces that together are the first
    [nb_batch * batch_size] entries of [index_array], each once and in
    order; so they are all of [index_array] when [nb_batch * batch_size]
    reaches [nb_train_sample], and fall short of it otherwise. *)
Theorem batches_cut_a_prefix (nb_train_sample batch_size nb_batch : Z) :
  0 <= nb_train_sample -> 0 < batch_size ->
  let index_array := seq 0 (Z.to_nat nb_train_sample) in
  let visited :=
    mjoin ((fun batch : Z * Z => py_slice index_array batch.1 batch.2)
             <$> batch_bounds nb_train_sample batch_size nb_batch) in
  visited = take (Z.to_nat (nb_batch * batch_size)) index_array /\
  (visited = index_array <-> nb_train_sample <= nb_batch * batch_size \/ nb_train_sample = 0).
Proof.
  intros Hn Hb index_array visited.
  assert (Hprefix : forall j : nat,
            mjoin ((fun batch : Z * Z => py_slice index_array batch.1 batch.2) <$>
                   batch_bounds nb_train_sample batch_size (Z.of_nat j))
            = seq 0 (Z.to_nat (Z.min nb_train_sample (Z.of_nat j * batch_size)))).
  { unfold batch_bounds, py_range. induction j as [|j IH].
    - simpl. rewrite Z.min_r by lia. reflexivity.
    - rewrite seqZ_S, !fmap_app, join_app, IH. simpl.
      rewrite app_nil_r. subst index_array.
      rewrite py_slice_arange by nia.
      set (a := Z.min nb_train_sample (Z.of_nat j * batch_size)).
      set (b := Z.min nb_train_sample (Z.of_nat (S j) * batch_size)).
      assert (Hab : 0 <= a <= b) by (subst a b; nia).
      replace (Z.to_nat b) with (Z.to_nat a + Z.to_nat (b - a))%nat by lia.
      rewrite seq_app. f_equal. f_equal; subst a b; lia. }
  assert (Hvisited : visited = take (Z.to_nat (nb_batch * batch_size)) index_array).
  { subst visited index_array. rewrite take_seq.
    destruct (Z.le_gt_cases 0 nb_batch) as [Hk|Hk].
    - rewrite <- (Z2Nat.id nb_batch) at 1 by lia. rewrite Hprefix.
      rewrite Z2Nat.id by lia. f_equal. lia.
    - unfold batch_bounds, py_range. rewrite seqZ_nil by lia. simpl.
      replace (Z.to_nat (nb_batch * batch_size)) with 0%nat by nia. reflexivity. }
  split; [exact Hvisited|]. rewrite Hvisited. subst index_array. rewrite take_seq.
  split.
  - intros Heq. apply (f_equal length) in Heq. rewrite !length_seq in Heq. lia.
  - intros Hall. f_equal. lia.
Qed.
End WorkerFurther.

(** * Further properties of the coordinator *)

Section CoordinatorFurther.
Context `{Handles} `{!Keras} `{!Pickle} `{!Optimizers} `{!Networking}
        `{!Spark} `{!Processes}.
Variable globals : attrs.

(** X12.  [stop_server] on a model whose server was never started raises
    [AttributeError]: the constructors do not set [server].  Nothing is
    terminated. *)
Theorem stop_before_start_raises self n l :
  constructed globals self ->
  stop_server {| c_self := self; c_net := n; c_log := l |}
  = (Raise (AttributeError "server"), {| c_self := self; c_net := n; c_log := l |}).
Proof.
  intros [km o p self0 Hinit | sc rdd km o nw p self0 Hinit].
  - apply DistributedModel_init_attrs in Hinit as ->.
    unfold stop_server, on_self. py_simpl. repeat (map_step; simpl). reflexivity.
  - destruct (SparkModel_init_attrs _ _ _ _ _ _ _ _ Hinit) as (base & Hbase & ->).
    apply DistributedModel_init_attrs in Hbase as ->.
    unfold stop_server, on_self. py_simpl. repeat (map_step; simpl). reflexivity.
Qed.

(** X13.  [start_server] followed by [stop_server] succeeds on any
    object: the process is started from the object as it is once [server]
    is set, then terminated, and [server] is the only attribute the two
    calls leave changed. *)
Theorem start_then_stop s :
  (start_server >> stop_server) s
  = (Ok tt,
     {| c_self := <["server" := PyProcess]> (c_self s);
        c_net := process_terminate
                   (process_start (<["server" := PyProcess]> (c_self s)) (c_net s));
        c_log := c_log s ++ [ServerStarted; ServerStopped] |}).
Proof.
  unfold start_server, stop_server, on_self, on_net, clog. py_simpl.
  repeat (map_step; simpl). rewrite <- app_assoc. reflexivity.
Qed.

Lemma not_written name :
  name ∉ written ->
  name <> "app" /\ name <> "server" /\ name <> "dataset_rdd" /\
  name <> "master_model" /\ name <> "optimizer" /\ name <> "weights".
Proof. unfold written. rewrite !not_elem_of_cons. tauto. Qed.

Lemma frames_bind {A B} (c : py cstate A) (k : A -> py cstate B) :
  frames c -> (forall a, frames (k a)) -> frames (bind c k).
Proof.
  intros Hc Hk s name Hn. unfold bind. specialize (Hc s name Hn).
  destruct (c s) as [[a|e] s1]; simpl in *.
  - rewrite (Hk a s1 name Hn). exact Hc.
  - exact Hc.
Qed.

Lemma frames_same {A} (c : py cstate A) :
  (forall s, c_self (snd (c s)) = c_self s) -> frames c.
Proof. intros Hc s name _. by rewrite Hc. Qed.

Lemma frames_pure {A} (c : py attrs A) :
  (forall self, snd (c self) = self) -> frames (on_self c).
Proof.
  intros Hc. apply frames_same. intros s. unfold on_self.
  specialize (Hc (c_self s)). destruct (c (c_self s)); simpl in *. by subst.
Qed.

Lemma frames_set name v : name ∈ written -> frames (on_self (set_self_attr name v)).
Proof.
  intros Hin s name' Hn. simpl. rewrite lookup_insert_ne; [reflexivity|].
  intros ->. by apply Hn.
Qed.

Lemma frames_helper name : frames (helper globals name).
Proof. apply frames_same. intros s. unfold helper. by destruct (globals !! name). Qed.

Lemma frames_on_net {A} (c : net -> result A * net) : frames (on_net c).
Proof. apply frames_same. intros s. unfold on_net. by destruct (c (c_net s)). Qed.

Lemma frames_service incoming : frames (on_self (service globals incoming)).
Proof.
  intros s name Hn. apply not_written in Hn as (Ha & _ & _ & _ & Ho & Hw).
  unfold on_self, service. py_simpl.
  pose proof (serve_frame globals incoming (<["app" := PyOpaque "Flask"]> (c_self s))
                name Ho Hw) as Hf.
  destruct (serve globals incoming _) as [resps self']. simpl in *.
  rewrite Hf. by rewrite lookup_insert_ne.
Qed.

Ltac frames_step :=
  lazymatch goal with
  | |- frames (bind _ _) => apply frames_bind; [|intros ?]
  | |- frames (on_self (self_attr _)) => by apply frames_pure
  | |- frames (on_self get_master_url) => apply frames_pure, get_master_url_pure
  | |- frames (on_self get_config) => apply frames_pure, get_config_pure
  | |- frames (on_self (DistributedModel_predict _)) => apply frames_pure, predict_pure
  | |- frames (on_self (DistributedModel_predict_classes _)) =>
      apply frames_pure, predict_classes_pure
  | |- frames (on_self (service _ _)) => apply frames_service
  | |- frames (on_self (set_self_attr _ _)) =>
      apply frames_set; unfold written; rewrite !elem_of_cons; tauto
  | |- frames (lift _) => by apply frames_same
  | |- frames (ret _) => by apply frames_same
  | |- frames (raise _) => by apply frames_same
  | |- frames (clog _) => by apply frames_same
  | |- frames (helper _ _) => apply frames_helper
  | |- frames (on_net _) => apply frames_on_net
  | |- frames (mapPartitions_collect _ _ _) =>
      apply frames_same; intros ?; apply mapPartitions_collect_self
  | |- frames (if ?b then _ else _) => destruct b
  | |- frames (match ?x with _ => _ end) => destruct x
  | |- frames (fun _ => _) => by apply frames_same
  end.

Lemma call_frames m : frames (call globals m).
Proof.
  destruct m; simpl;
    unfold void, DistributedModel_train, SparkModel_train, SparkModel__train,
      start_server, stop_server;
    cbv zeta; repeat frames_step.
Qed.

Lemma calls_frame ms s name :
  name ∉ written -> c_self (calls globals ms s) !! name = c_self s !! name.
Proof.
  intros Hn. revert s. induction ms as [|m ms IH]; intros s; simpl; [reflexivity|].
  unfold calls in *. simpl. rewrite IH. by apply call_frames.
Qed.

(** X14.  Whatever methods are called on a model object, and whether they
    return or raise, the only attributes they ever assign are [app],
    [server], [dataset_rdd], [master_model], [optimizer] and [weights]:
    every other attribute keeps the value it had. *)
Theorem methods_assign_six_attributes ms s name :
  name ∉ written -> c_self (calls globals ms s) !! name = c_self s !! name.
Proof. apply calls_frame. Qed.
End CoordinatorFurther.

Section CoordinatorTrain.
Context `{Handles} `{!Keras} `{!Pickle} `{!Optimizers} `{!Networking}
        `{!Spark} `{!Processes}.
Variable globals : attrs.

Lemma mapPartitions_collect_ok json_model optimizer loss train_config frequency
    master_url parts s collected s' :
  mapPartitions_collect globals
    (snd (SparkWorker_init json_model optimizer loss train_config frequency master_url ∅))
    parts s = (Ok collected, s') ->
  Forall featureless parts.
Proof.
  unfold mapPartitions_collect. generalize (@nil (list unit)) as acc.
  revert s. induction parts as [|part parts IH]; intros s acc Hrun.
  - constructor.
  - cbn [for_each] in Hrun. unfold bind at 1 in Hrun.
    destruct (decide (np_size (fst <$> part) = 0%nat)) as [Hf|Hf].
    + constructor; [exact Hf|].
      destruct (SparkWorker_train globals _ part _) as [[yielded|e] ws];
        [|discriminate]. by eapply IH.
    + destruct (SparkWorker_init_train_raises globals json_model optimizer loss
                  train_config frequency master_url part
                  {| w_net := c_net s; w_log := [] |} Hf) as [e He].
      rewrite He in Hrun. discriminate.
Qed.

(** X15.  [_train] hands every partition to a worker it has just made
    with the constructor, and such a worker raises on any partition with
    features: whenever [_train] returns normally, no partition of the
    data set had features. *)
Theorem train_needs_featureless_partitions parameters s s' :
  SparkModel__train globals parameters s = (Ok tt, s') ->
  exists parts,
    c_self s !! "dataset_rdd" = Some (PyRDD parts) /\ Forall featureless parts.
Proof.
  unfold SparkModel__train, get_master_url, on_self. py_simpl.
  destruct (c_self s !! "master_model") as [mm|]; simpl; [|discriminate].
  destruct (as_model "to_json" mm) as [m|]; simpl; [|discriminate].
  destruct (c_self s !! "master_address") as [a|]; simpl; [|discriminate].
  destruct (as_str a) as [address|]; simpl; [|discriminate].
  destruct (c_self s !! "master_port") as [port|]; simpl; [|discriminate].
  destruct (c_self s !! "optimizer") as [o|]; simpl; [|discriminate].
  destruct (c_self s !! "loss") as [loss|]; simpl; [|discriminate].
  destruct (c_self s !! "frequency") as [frequency|]; simpl; [|discriminate].
  destruct (c_self s !! "dataset_rdd") as [rdd|]; simpl; [|discriminate].
  destruct (as_rdd "mapPartitions" rdd) as [parts|] eqn:Erdd; simpl; [|discriminate].
  destruct (mapPartitions_collect globals _ parts _) as [[collected|e] s1] eqn:Emap;
    [|discriminate].
  intros _. exists parts. split.
  - destruct rdd; try discriminate. simpl in Erdd. by injection Erdd as ->.
  - exact (mapPartitions_collect_ok (PyStr (to_json m)) o loss parameters frequency
             (PyStr (address +:+ ":" +:+ py_repr port)) parts _ collected s1 Emap).
Qed.

Lemma mapPartitions_collect_featureless worker parts s :
  is_Some (globals !! "tee") ->
  Forall featureless parts ->
  mapPartitions_collect globals worker parts s
  = (Ok [], {| c_self := c_self s; c_net := c_net s;
               c_log := c_log s ++ replicate (length parts) (WorkerRan []) |}).
Proof.
  intros Htee Hparts. unfold mapPartitions_collect.
  revert s. induction Hparts as [|part parts Hpart _ IH]; intros s.
  - simpl. rewrite app_nil_r. by destruct s.
  - cbn [for_each]. unfold bind at 1.
    rewrite (SparkWorker_train_featureless globals worker part _ Htee Hpart).
    simpl. rewrite IH. simpl. rewrite <- app_assoc. reflexivity.
Qed.

Lemma SparkModel__train_to_fetch parameters self m url parts n l :
  ready self m url parts ->
  Forall featureless parts ->
  is_Some (globals !! "tee") ->
  is_Some (globals !! "get_master_weights") ->
  SparkModel__train globals parameters {| c_self := self; c_net := n; c_log := l |}
  = (let* new_weights := on_net (get_master_weights url) in
     (if negb (length new_weights =? 0)%nat
      then
        let* mm := on_self (self_attr "master_model") in
        let* m := lift (as_model "set_weights" mm) in
        on_self (set_self_attr "master_model" (PyModel (set_weights new_weights m))) >>
        clog (Installed new_weights)
      else ret tt) >>
     stop_server)
      {| c_self := self; c_net := n;
         c_log := l ++ replicate (length parts) (WorkerRan []) ++ [FinalFetch] |}.
Proof.
  intros (Hm & (address & port & Ha & Hp & ->) & [o Ho] & [loss Hl] & [f Hf] & Hrdd & _)
         Hparts Htee [g Hg].
  unfold SparkModel__train. cbv zeta.
  unfold bind at 1. unfold on_self at 1, self_attr at 1, getattr at 1. simpl.
  rewrite Hm. simpl.
  unfold bind at 1. simpl.
  unfold bind at 1. unfold on_self at 1, get_master_url. py_simpl.
  rewrite Ha; simpl. rewrite Hp; simpl.
  unfold on_self. simpl. rewrite Ho; simpl. rewrite Hl; simpl. rewrite Hf; simpl.
  rewrite Hrdd; simpl.
  rewrite (mapPartitions_collect_featureless _ parts _ Htee Hparts). simpl.
  rewrite Hg. simpl. unfold clog, modify. simpl. rewrite <- app_assoc. reflexivity.
Qed.

(** X16.  When the attributes [_train] reads are set and no partition
    has features, [_train] runs the worker on every partition, fetches
    once, installs what it fetched into the master model exactly when it
    is not empty, and then stops the server. *)
Theorem final_parameters_installed_when_not_empty parameters self m url parts n l w n' :
  ready self m url parts ->
  Forall featureless parts ->
  is_Some (globals !! "tee") ->
  is_Some (globals !! "get_master_weights") ->
  get_master_weights url n = (Ok w, n') ->
  SparkModel__train globals parameters {| c_self := self; c_net := n; c_log := l |}
  = (Ok tt,
     {| c_self := if (length w =? 0)%nat then self
                  else <["master_model" := PyModel (set_weights w m)]> self;
        c_net := process_terminate n';
        c_log := l ++ replicate (length parts) (WorkerRan []) ++ [FinalFetch]
                   ++ (if (length w =? 0)%nat then [] else [Installed w])
                   ++ [ServerStopped] |}).
Proof.
  intros Hready Hparts Htee Hg Hfetch.
  rewrite (SparkModel__train_to_fetch parameters self m url parts n l
             Hready Hparts Htee Hg).
  destruct Hready as (Hm & _ & _ & _ & _ & _ & Hserver).
  unfold stop_server, on_net, on_self, clog. py_simpl. rewrite Hfetch. simpl.
  destruct (length w =? 0)%nat; simpl.
  - rewrite Hserver. simpl. rewrite <- !app_assoc. reflexivity.
  - rewrite Hm. simpl. rewrite lookup_insert_ne by done. rewrite Hserver. simpl.
    rewrite <- !app_assoc. reflexivity.
Qed.

(** X17.  When the final Fetch raises, [_train] raises with it and
    [stop_server] is never reached: the server is left running and the
    master model is as it was. *)
Theorem failed_final_fetch_leaves_server_running parameters self m url parts n l e n' :
  ready self m url parts ->
  Forall featureless parts ->
  is_Some (globals !! "tee") ->
  is_Some (globals !! "get_master_weights") ->
  get_master_weights url n = (Raise e, n') ->
  SparkModel__train globals parameters {| c_self := self; c_net := n; c_log := l |}
  = (Raise e,
     {| c_self := self; c_net := n';
        c_log := l ++ replicate (length parts) (WorkerRan []) ++ [FinalFetch] |}).
Proof.
  intros Hready Hparts Htee Hg Hfetch.
  rewrite (SparkModel__train_to_fetch parameters self m url parts n l
             Hready Hparts Htee Hg).
  unfold on_net. py_simpl. rewrite Hfetch. reflexivity.
Qed.

(** X18.  On a model made by either constructor, at any point of its
    life, [predict] and [predict_classes] return what the master model
    predicts and leave the object as it is: [master_model] always holds a
    model. *)
Theorem predict_never_fails s data :
  reachable globals s ->
  exists m,
    c_self s !! "master_model" = Some (PyModel m) /\
    DistributedModel_predict data (c_self s) = (Ok (predict data m), c_self s) /\
    DistributedModel_predict_classes data (c_self s)
      = (Ok (predict_classes data m), c_self s).
Proof.
  intros Hs. destruct (reachable_no_mode globals s Hs) as (_ & [m Hm] & _).
  exists m. split; [exact Hm|].
  unfold DistributedModel_predict, DistributedModel_predict_classes. py_simpl.
  rewrite Hm. simpl. split; reflexivity.
Qed.

(** X19.  The master URL of a model made by either constructor with a
    port number is the host address, a colon and the port in decimal, and
    stays so whatever methods are called on the model. *)
Theorem master_url_is_stable keras_model optimizer master_port self0 ms n :
  0 <= master_port <= 65535 ->
  (DistributedModel_init globals keras_model optimizer master_port ∅ = (Ok tt, self0) \/
   exists sc rdd num_workers,
     SparkModel_init globals sc rdd keras_model optimizer num_workers master_port ∅
     = (Ok tt, self0)) ->
  get_master_url
    (c_self (calls globals ms {| c_self := self0; c_net := n; c_log := [] |}))
  = (Ok (determine_host_address +:+ ":" +:+ pretty master_port),
     c_self (calls globals ms {| c_self := self0; c_net := n; c_log := [] |})).
Proof.
  intros Hport Hinit.
  assert (Hself0 : self0 !! "master_address" = Some (PyStr determine_host_address) /\
                   self0 !! "master_port" = Some (PyInt master_port)).
  { destruct Hinit as [Hinit | (sc & rdd & nw & Hinit)].
    - apply DistributedModel_init_attrs in Hinit as ->.
      split; repeat map_step; reflexivity.
    - destruct (SparkModel_init_attrs _ _ _ _ _ _ _ _ Hinit) as (base & Hbase & ->).
      apply DistributedModel_init_attrs in Hbase as ->.
      split; repeat map_step; reflexivity. }
  destruct Hself0 as [Ha Hp].
  unfold get_master_url. py_simpl.
  assert (Hfresh : forall name, name = "master_address" \/ name = "master_port" ->
                                name ∉ written).
  { intros name [-> | ->]; unfold written; rewrite !not_elem_of_cons;
      repeat split; try done; apply not_elem_of_nil. }
  rewrite !(calls_frame globals ms) by (apply Hfresh; auto).
  simpl. rewrite Ha; simpl. rewrite Hp; simpl.
  replace ((- 2 ^ 63 <=? master_port) && (master_port <? 2 ^ 63)) with true;
    [reflexivity|].
  symmetry. apply andb_true_iff. split; [apply Z.leb_le | apply Z.ltb_lt]; lia.
Qed.
End CoordinatorTrain.

(** * Further properties of the threads, the constructor and the data set *)

Section ThreadsAndData.
Context `{Handles} `{!Keras} `{!Pickle} `{!Optimizers} `{!Networking}.
Variable globals : attrs.

(** X20.  Mutual exclusion: under any schedule, at any moment, at most
    one thread is inside a [with self.mutex:] block. *)
Theorem at_most_one_thread_inside requests self0 schedule pool sh i j ti tj :
  run globals schedule (arrived requests self0) = (pool, sh) ->
  pool !! i = Some ti -> pool !! j = Some tj ->
  inside ti -> inside tj ->
  i = j.
Proof.
  intros Hrun Hi Hj Hini Hinj.
  destruct (run_linearised globals requests self0 schedule _ _
              (arrived_linearised globals requests self0)) as [order L].
  rewrite Hrun in L. destruct L as [_ _ _ _ _ Hth _]. cbn [fst snd] in Hth.
  pose proof (Hth i ti Hi) as Hli. pose proof (Hth j tj Hj) as Hlj.
  destruct ti; simpl in *; try done; destruct tj; simpl in *; try done; congruence.
Qed.

(** X21.  No deadlock: under any schedule, as long as some request is
    not answered, some thread can take a step; it is the thread that
    holds the lock when the lock is held. *)
Theorem some_thread_can_step requests self0 schedule pool sh i t :
  run globals schedule (arrived requests self0) = (pool, sh) ->
  pool !! i = Some t -> ~ is_answered t ->
  exists j tj tj' sh', pool !! j = Some tj /\ step globals j tj sh = Some (tj', sh').
Proof.
  intros Hrun Hi Hna.
  destruct (run_linearised globals requests self0 schedule _ _
              (arrived_linearised globals requests self0)) as [order L].
  rewrite Hrun in L.
  destruct (sh_lock sh) as [j|] eqn:Hlock.
  - destruct L as [_ _ _ _ _ _ Hst]. cbn [fst snd] in Hst. rewrite Hlock in Hst.
    destruct Hst as (tj & r & base & Hj & _ & _ & Hfin).
    assert (Hstep : exists tj' sh', step globals j tj sh = Some (tj', sh')).
    { destruct tj; simpl in Hfin; try discriminate; simpl.
      - destruct (updated_weights delta (sh_self sh)) as [[new|e] self']; eauto.
      - eauto.
      - destruct (pickle_master_weights globals (sh_self sh)) as [rv self']. eauto.
      - eauto. }
    destruct Hstep as (tj' & sh' & Hstep). by exists j, tj, tj', sh'.
  - pose proof (linearised_free globals requests self0 pool sh order i t L Hlock Hi)
      as Hout.
    assert (Henter : forall t', exists tj' sh', enter i t' sh = Some (tj', sh')).
    { intros t'. unfold enter. rewrite Hlock.
      destruct (getattr (sh_self sh) "mutex") as [[]|]; eauto. }
    assert (Hstep : exists t' sh', step globals i t sh = Some (t', sh')).
    { destruct t as [[|body]|delta| | | | |]; simpl in *; try tauto.
      - apply Henter.
      - destruct (loads body); eauto.
      - apply Henter. }
    destruct Hstep as (t' & sh' & Hstep). by exists i, t, t', sh'.
Qed.

(** X22.  The constructor of [DistributedModel], which the one of
    [SparkModel] runs first, succeeds when the module namespace binds
    [determine_host_address] and then holds the model's parameters under
    [weights]; when the name is not bound it raises [NameError] after it
    has set [master_model] and [weights], and nothing else. *)
Theorem constructor_needs_host_address keras_model optimizer master_port :
  (is_Some (globals !! "determine_host_address") ->
   exists self,
     DistributedModel_init globals keras_model optimizer master_port ∅ = (Ok tt, self) /\
     self !! "weights" = Some (PyWeights (get_weights keras_model))) /\
  (globals !! "determine_host_address" = None ->
   DistributedModel_init globals keras_model optimizer master_port ∅
   = (Raise (NameError "determine_host_address"),
      <["weights" := PyWeights (get_weights keras_model)]>
        (<["master_model" := PyModel keras_model]> ∅))).
Proof.
  unfold DistributedModel_init. py_simpl. rewrite lookup_insert_eq. simpl. split.
  - intros [v ->]. simpl. eexists. split; [reflexivity|].
    by repeat map_step.
  - intros ->. reflexivity.
Qed.

Lemma zip_fst_take {A B} (l : list A) (k : list B) :
  (zip l k).*1 = take (length k) l.
Proof.
  revert k. induction l as [|x l IH]; intros [|y k]; simpl; try reflexivity.
  by rewrite IH.
Qed.

Lemma zip_snd_take {A B} (l : list A) (k : list B) :
  (zip l k).*2 = take (length l) k.
Proof.
  revert k. induction l as [|x l IH]; intros [|y k]; simpl; try reflexivity.
  by rewrite IH.
Qed.

(** X23.  [to_simple_rdd] pairs features and labels position by
    position and stops at the shorter of the two: with a [parallelize]
    that keeps the records in order, the features of the data set are
    the first [len(labels)] features and its labels the first
    [len(features)] labels, so whatever is left over on the longer side
    is dropped without notice. *)
Theorem to_simple_rdd_pairs parallelize features labels :
  (forall pairs, mjoin (parallelize pairs) = pairs) ->
  (mjoin (to_simple_rdd parallelize features labels)).*1
    = take (length labels) features /\
  (mjoin (to_simple_rdd parallelize features labels)).*2
    = take (length features) labels.
Proof.
  intros Hkeep. unfold to_simple_rdd. rewrite Hkeep.
  split; [apply zip_fst_take | apply zip_snd_take].
Qed.
End ThreadsAndData.

(** * The further properties on concrete settings *)

Section FurtherExamples.
Import Concrete Scenario.

Lemma store_after_requests_witness :
  snd (serve star_imports three_requests server0) !! "weights"
  = Some (PyWeights (snd (foldl (store_after (constraints initial_parameters))
                            (tt, initial_parameters) three_requests))).
Proof.
  rewrite (store_after_requests star_imports three_requests server0 initial_parameters
             (tt, initial_parameters) server0_serving).
  apply lookup_insert_eq.
Defined.

Lemma fetch_serves_initial_parameters_witness :
  fst (handle with_pickle GET_parameters
         (snd (serve with_pickle three_requests
                 (snd (DistributedModel_init with_pickle initial_parameters tt 5000 ∅)))))
  = HTTP200 (dumps (get_weights initial_parameters)).
Proof.
  apply (fetch_serves_initial_parameters with_pickle initial_parameters tt 5000 _
           three_requests);
    [reflexivity | vm_compute; reflexivity].
Defined.

Lemma every_submit_is_answered_500_witness :
  fst (serve with_pickle three_requests server0) !! 1%nat = Some HTTP500.
Proof.
  apply (every_submit_is_answered_500 with_pickle three_requests server0 1
           (pickled difference)).
  reflexivity.
Defined.

Lemma constructed_worker_cannot_train_witness :
  exists e,
    SparkWorker_train (patched 1)
      (snd (SparkWorker_init (PyStr "{}") (PyOpaque "sgd") (PyOpaque "mse")
              (config 1 1) (PyStr "epoch") (PyStr "10.0.0.1:5000") ∅))
      (records 3) start
    = (Raise e, start).
Proof.
  apply (constructed_worker_cannot_train (patched 1)).
  vm_compute. discriminate.
Defined.

Lemma featureless_partition_is_skipped_witness :
  SparkWorker_train star_imports (worker "epoch" 1 1) [bare; bare] start = (Ok [], start).
Proof.
  apply (featureless_partition_is_skipped star_imports).
  - eexists. vm_compute. reflexivity.
  - repeat constructor.
Defined.



Lemma empty_fetch_full_replacement_witness :
  train_batch star_imports (worker "epoch" 1 1) [[1%Q]; [1%Q]] [[0%Q]; [0%Q]] [0%nat]
    (0, 1) [vec 7] cold
  = (Ok [vec 7],
     {| w_net := @nil ndarray;
        w_log := w_log cold ++ [Fetch (Ok []); Train [[1%Q]] [[0%Q]]; Submit [vec 7]] |}).
Proof.
  refine (empty_fetch_full_replacement star_imports (worker "epoch" 1 1)
            [[1%Q]; [1%Q]] [[0%Q]; [0%Q]] [0%nat] 0 1 [vec 7] "10.0.0.1:5000"
            cold (@nil ndarray) [[1%Q]] [[0%Q]] (@nil ndarray) _ _ _ _ _ _ _ _);
    try reflexivity; try (eexists; vm_compute; reflexivity).
  discriminate.
Defined.

(** Ten indices in batches of three: three batches visit nine of them,
    four visit all ten. *)
Lemma batches_cut_a_prefix_witness :
  mjoin ((fun batch : Z * Z => py_slice (seq 0 (Z.to_nat 10)) batch.1 batch.2)
           <$> batch_bounds 10 3 3)
    = take (Z.to_nat (3 * 3)) (seq 0 (Z.to_nat 10)) /\
  mjoin ((fun batch : Z * Z => py_slice (seq 0 (Z.to_nat 10)) batch.1 batch.2)
           <$> batch_bounds 10 3 4)
    = seq 0 (Z.to_nat 10).
Proof.
  split.
  - apply (proj1 (batches_cut_a_prefix 10 3 3 ltac:(lia) ltac:(lia))).
  - apply (proj2 (batches_cut_a_prefix 10 3 4 ltac:(lia) ltac:(lia))). left. lia.
Defined.

Lemma server0_constructed : constructed star_imports server0.
Proof.
  apply (constructed_base star_imports initial_parameters tt 5000).
  vm_compute. reflexivity.
Qed.

Lemma stop_before_start_raises_witness :
  stop_server (driver server0 initial_parameters)
  = (Raise (AttributeError "server"), driver server0 initial_parameters).
Proof.
  apply (stop_before_start_raises star_imports server0 initial_parameters []
           server0_constructed).
Defined.

Lemma methods_assign_six_attributes_witness :
  c_self (calls star_imports [M_start_server; M_spark_train (config 1 1); M_stop_server]
            (driver spark0 initial_parameters)) !! "mutex"
  = spark0 !! "mutex".
Proof.
  apply (methods_assign_six_attributes star_imports
           [M_start_server; M_spark_train (config 1 1); M_stop_server]
           (driver spark0 initial_parameters) "mutex").
  unfold written. rewrite !not_elem_of_cons.
  repeat split; try discriminate. apply not_elem_of_nil.
Defined.

Lemma ready_model_ready :
  ready ready_model initial_parameters "10.0.0.1:5000" [[]; []].
Proof.
  unfold ready. split; [vm_compute; reflexivity|].
  split; [exists "10.0.0.1", (PyInt 5000); repeat split; vm_compute; reflexivity|].
  split; [eexists; vm_compute; reflexivity|].
  split; [eexists; vm_compute; reflexivity|].
  split; [eexists; vm_compute; reflexivity|].
  split; vm_compute; reflexivity.
Qed.

Lemma two_empty_partitions : Forall featureless [[]; []].
Proof. repeat constructor. Qed.

Lemma star_imports_bind name :
  name ∈ ["tee"; "get_master_weights"] -> is_Some (star_imports !! name).
Proof.
  rewrite !elem_of_cons. intros [-> | [-> | Hnil]];
    [eexists; vm_compute; reflexivity | eexists; vm_compute; reflexivity |].
  by apply elem_of_nil in Hnil.
Qed.

Lemma train_needs_featureless_partitions_witness :
  exists parts,
    ready_model !! "dataset_rdd" = Some (PyRDD parts) /\ Forall featureless parts.
Proof.
  apply (train_needs_featureless_partitions star_imports (config 1 1)
           (driver ready_model initial_parameters)
           (snd (SparkModel__train star_imports (config 1 1)
                   (driver ready_model initial_parameters)))).
  vm_compute. reflexivity.
Defined.

Lemma final_parameters_installed_when_not_empty_witness :
  SparkModel__train star_imports (config 1 1) (driver ready_model initial_parameters)
  = (Ok tt,
     {| c_self := <["master_model" := PyModel (set_weights initial_parameters
                                                initial_parameters)]> ready_model;
        c_net := initial_parameters;
        c_log := [WorkerRan []; WorkerRan []; FinalFetch;
                  Installed initial_parameters; ServerStopped] |}).
Proof.
  assert (Htee : is_Some (star_imports !! "tee")).
  { apply star_imports_bind. rewrite !elem_of_cons. auto. }
  assert (Hget : is_Some (star_imports !! "get_master_weights")).
  { apply star_imports_bind. rewrite !elem_of_cons. auto. }
  exact (final_parameters_installed_when_not_empty star_imports (config 1 1) ready_model
           initial_parameters "10.0.0.1:5000" [[]; []] initial_parameters []
           initial_parameters initial_parameters ready_model_ready two_empty_partitions
           Htee Hget eq_refl).
Defined.

Lemma predict_never_fails_witness :
  exists m,
    server0 !! "master_model" = Some (PyModel m) /\
    DistributedModel_predict [[1%Q]] server0 = (Ok (predict [[1%Q]] m), server0) /\
    DistributedModel_predict_classes [[1%Q]] server0
      = (Ok (predict_classes [[1%Q]] m), server0).
Proof.
  apply (predict_never_fails star_imports (driver server0 initial_parameters) [[1%Q]]).
  apply reachable_new. exact server0_constructed.
Defined.

Lemma master_url_is_stable_witness :
  fst (get_master_url
         (c_self (calls star_imports [M_start_server; M_stop_server]
                    (driver server0 initial_parameters))))
  = Ok "10.0.0.1:5000".
Proof.
  rewrite (master_url_is_stable star_imports initial_parameters tt 5000 server0
             [M_start_server; M_stop_server] initial_parameters).
  - reflexivity.
  - lia.
  - left. vm_compute. reflexivity.
Defined.

Lemma at_most_one_thread_inside_witness :
  fst (run with_pickle [0; 0]%nat (arrived three_requests server0)) !! 0%nat
    = Some (Updating difference) /\
  0%nat = 0%nat.
Proof.
  assert (Hin : fst (run with_pickle [0; 0]%nat (arrived three_requests server0)) !! 0%nat
                = Some (Updating difference)) by (vm_compute; reflexivity).
  split; [exact Hin|].
  apply (at_most_one_thread_inside with_pickle three_requests server0 [0; 0]%nat
           (fst (run with_pickle [0; 0]%nat (arrived three_requests server0)))
           (snd (run with_pickle [0; 0]%nat (arrived three_requests server0)))
           0%nat 0%nat (Updating difference) (Updating difference));
    [apply surjective_pairing | exact Hin | exact Hin | exact I | exact I].
Defined.

Lemma some_thread_can_step_witness :
  exists j tj tj' sh',
    fst (run with_pickle [0; 0]%nat (arrived three_requests server0)) !! j = Some tj /\
    step with_pickle j tj (snd (run with_pickle [0; 0]%nat (arrived three_requests server0)))
    = Some (tj', sh').
Proof.
  apply (some_thread_can_step with_pickle three_requests server0 [0; 0]%nat _ _
           2%nat (Arrived GET_parameters));
    [apply surjective_pairing | vm_compute; reflexivity | intros []].
Defined.

Lemma constructor_needs_host_address_witness :
  exists self,
    DistributedModel_init star_imports initial_parameters tt 5000 ∅ = (Ok tt, self) /\
    self !! "weights" = Some (PyWeights (get_weights initial_parameters)).
Proof.
  apply (proj1 (constructor_needs_host_address star_imports initial_parameters tt 5000)).
  eexists. vm_compute. reflexivity.
Defined.

Lemma to_simple_rdd_pairs_witness :
  (mjoin (to_simple_rdd one_partition [[1%Q]; [2%Q]; [3%Q]] [[0%Q]; [1%Q]])).*1
    = take 2 [[1%Q]; [2%Q]; [3%Q]] /\
  (mjoin (to_simple_rdd one_partition [[1%Q]; [2%Q]; [3%Q]] [[0%Q]; [1%Q]])).*2
    = take 3 [[0%Q]; [1%Q]].
Proof.
  apply (to_simple_rdd_pairs one_partition [[1%Q]; [2%Q]; [3%Q]] [[0%Q]; [1%Q]]).
  intros pairs. unfold one_partition. simpl. apply app_nil_r.
Defined.
End FurtherExamples.

Section UnreachableServer.
Import Concrete Scenario.
#[local] Existing Instance unreachable | 0.

Lemma failed_final_fetch_leaves_server_running_witness :
  SparkModel__train star_imports (config 1 1) (driver ready_model initial_parameters)
  = (Raise (HTTPError 500),
     {| c_self := ready_model; c_net := initial_parameters;
        c_log := [WorkerRan []; WorkerRan []; FinalFetch] |}).
Proof.
  apply (failed_final_fetch_leaves_server_running star_imports (config 1 1) ready_model
           initial_parameters "10.0.0.1:5000" [[]; []] initial_parameters []
           (HTTPError 500) initial_parameters ready_model_ready two_empty_partitions).
  - apply star_imports_bind. rewrite !elem_of_cons. auto.
  - apply star_imports_bind. rewrite !elem_of_cons. auto.
  - reflexivity.
Defined.
End UnreachableServer.
